(** * The ecobee integration of Home Assistant: a shallow embedding

    Source: [homeassistant/components/ecobee/__init__.py].

    The module is glue between three collaborators that live elsewhere:
    the vendor client ([pyecobee.Ecobee]), the hosting platform
    ([hass.data], [hass.config_entries], [hass.async_create_task]) and
    the throttling decorator of [homeassistant.util].  The embedding
    keeps the control flow of the module as it is written (a state and
    exception monad, one definition per Python function) and takes the
    collaborators as an interface whose behaviour is arbitrary. *)

From stdpp Require Import gmap strings list.
From Stdlib Require Import ZArith Lia.

Set Default Proof Using "Type".

(** ** Exceptions and the monad of the embedding *)

(** The exceptions the module can observe.  [ExpiredTokenError] is the
    one it names in an [except] clause; [KeyError] is what a dict
    subscript or [dict.pop] without default raises; everything else a
    collaborator may raise is an [OtherError]. *)
Inductive exn : Type :=
| ExpiredTokenError
| KeyError (key : string)
| OtherError (name : string).

Definition is_ExpiredTokenError (e : exn) : bool :=
  match e with ExpiredTokenError => true | _ => false end.

(** How a call ends: with a value or with a raised exception. *)
Inductive outcome (A : Type) : Type :=
| Returned (a : A)
| Raised (e : exn).
Arguments Returned {A} a.
Arguments Raised {A} e.

Definition returned {A} (o : outcome A) : bool :=
  match o with Returned _ => true | Raised _ => false end.

(** A computation over a state [S]: the state is kept when an
    exception is raised, as mutations of Python objects are. *)
Definition M (S A : Type) : Type := S -> outcome A * S.

Definition ret {S A} (a : A) : M S A := fun s => (Returned a, s).

Definition raise {S A} (e : exn) : M S A := fun s => (Raised e, s).

Definition bind {S A B} (m : M S A) (k : A -> M S B) : M S B :=
  fun s =>
    match m s with
    | (Returned a, s') => k a s'
    | (Raised e, s') => (Raised e, s')
    end.

(** [try: body / except <catches>: handler]. *)
Definition try_except {S A} (body : M S A) (catches : exn -> bool)
    (handler : M S A) : M S A :=
  fun s =>
    match body s with
    | (Returned a, s') => (Returned a, s')
    | (Raised e, s') => if catches e then handler s' else (Raised e, s')
    end.

Definition gets {S A} (f : S -> A) : M S A := fun s => (Returned (f s), s).

Definition modify {S} (f : S -> S) : M S unit := fun s => (Returned tt, f s).

Declare Scope py_scope.
Delimit Scope py_scope with py.
Notation "x <- m ;; k" := (bind m (fun x => k))
  (at level 100, m at next level, right associativity) : py_scope.
Notation "m ;; k" := (bind m (fun _ => k))
  (at level 100, right associativity) : py_scope.

(** [for x in xs: body x]. *)
Fixpoint for_each {S A} (xs : list A) (body : A -> M S unit) : M S unit :=
  match xs with
  | [] => ret tt
  | x :: xs' => bind (body x) (fun _ => for_each xs' body)
  end.

(** ** Data model *)

(** A thermostat record of the vendor client; the module never looks
    inside one. *)
Definition Thermostat : Type := string.

(** The two attributes of a [pyecobee.Ecobee] object the module reads:
    [config] (a dict) and [thermostats] ([None] or a list). *)
Record Ecobee : Type := mkEcobee {
  config : gmap string string;
  thermostats : option (list Thermostat)
}.

(** A [ConfigEntry] object, by identity: the entry passed to
    [async_setup_entry] and the one kept in [EcobeeData._entry] are the
    same object, and its [data] lives in the store of the platform. *)
Definition ConfigEntry : Type := nat.

(** [EcobeeData]: [_entry], [ecobee], and the timestamp the throttling
    wrapper keeps on its host object. *)
Record EcobeeData : Type := mkEcobeeData {
  _entry : ConfigEntry;
  ecobee : Ecobee;
  _throttle : option Z
}.

(** What the module stores in [hass.data]. *)
Inductive DataValue : Type :=
| ConfigBlock (block : gmap string string)
| Coordinator (data : EcobeeData).

(** Coroutines handed to [hass.async_create_task]. *)
Inductive Task : Type :=
| FlowInit (domain : string) (source : string)
| ForwardEntrySetup (entry : ConfigEntry) (component : string).

Inductive Level : Type := DEBUG | WARNING | ERROR.

(** Calls made to the collaborators, in the order they are made. *)
Inductive Call : Type :=
| CallUpdate
| CallRefreshTokens
| CallUpdateEntry (entry : ConfigEntry) (new_data : gmap string string)
| CallForwardEntryUnload (entry : ConfigEntry) (platform : string).

Definition is_CallUpdate (c : Call) : bool :=
  match c with CallUpdate => true | _ => false end.

Definition is_CallRefreshTokens (c : Call) : bool :=
  match c with CallRefreshTokens => true | _ => false end.

(** The constants the module imports from [.const],
    [homeassistant.const], [homeassistant.config_entries] and
    [pyecobee]; their values are not part of this file. *)
Class Constants : Type := {
  DOMAIN : string;
  DATA_ECOBEE_CONFIG : string;
  CONF_API_KEY : string;
  CONF_REFRESH_TOKEN : string;
  ECOBEE_API_KEY : string;
  ECOBEE_REFRESH_TOKEN : string;
  ECOBEE_PLATFORMS : list string;
  SOURCE_IMPORT : string
}.

(** The collaborators, over the state [World] of everything outside
    the process (the vendor service, the network, the platforms).
    Each call may return or raise, and may change the client object
    and the world either way. *)
Class Collaborators (World : Type) : Type := {
  (** [Ecobee(config=...)]: the client object built from a config dict. *)
  Ecobee__init__ : gmap string string -> Ecobee;
  (** [Ecobee.update], run through [hass.async_add_executor_job]; the
      module discards what it returns. *)
  Ecobee_update : Ecobee -> World -> outcome unit * Ecobee * World;
  (** [Ecobee.refresh_tokens]; the result is taken by its truth value. *)
  Ecobee_refresh_tokens : Ecobee -> World -> outcome bool * Ecobee * World;
  (** [hass.config_entries.async_forward_entry_unload(entry, platform)]. *)
  async_forward_entry_unload :
    ConfigEntry -> string -> World -> outcome bool * World
}.

(** The [hass] object as far as the module touches it. *)
Record HomeAssistant (World : Type) : Type := mkHass {
  data : gmap string DataValue;
  (** [hass.config_entries]: the registered entries with their domain *)
  entries : list (string * ConfigEntry);
  (** [entry.data] of every entry object (empty when never set) *)
  entry_data : gmap ConfigEntry (gmap string string);
  tasks : list Task;
  records : list (Level * string);
  calls : list Call;
  world : World
}.
Arguments mkHass {World}.
Arguments data {World}.
Arguments entries {World}.
Arguments entry_data {World}.
Arguments tasks {World}.
Arguments records {World}.
Arguments calls {World}.
Arguments world {World}.

(** [timedelta(seconds=n)], in microseconds, the resolution of
    [datetime]. *)
Definition timedelta_seconds (n : Z) : Z := (n * 1000000)%Z.

Definition MIN_TIME_BETWEEN_UPDATES : Z := timedelta_seconds 180.

(** ** The operations of the platform and of the client *)

Section Integration.
Context {K : Constants} {World : Type} {X : Collaborators World}.

Local Open Scope py_scope.

Local Abbreviation Hass := (HomeAssistant World).
(** State of a method of [EcobeeData]: the object ([self]) and [hass]. *)
Local Abbreviation Self := (EcobeeData * HomeAssistant World)%type.

(** *** Field updates *)

Definition with_data (f : gmap string DataValue -> gmap string DataValue)
    (h : Hass) : Hass :=
  mkHass (f (data h)) (entries h) (entry_data h) (tasks h) (records h)
         (calls h) (world h).

Definition with_entry_data
    (f : gmap ConfigEntry (gmap string string) ->
         gmap ConfigEntry (gmap string string))
    (h : Hass) : Hass :=
  mkHass (data h) (entries h) (f (entry_data h)) (tasks h) (records h)
         (calls h) (world h).

Definition add_task (t : Task) (h : Hass) : Hass :=
  mkHass (data h) (entries h) (entry_data h) (tasks h ++ [t]) (records h)
         (calls h) (world h).

Definition add_record (r : Level * string) (h : Hass) : Hass :=
  mkHass (data h) (entries h) (entry_data h) (tasks h) (records h ++ [r])
         (calls h) (world h).

Definition add_call (c : Call) (h : Hass) : Hass :=
  mkHass (data h) (entries h) (entry_data h) (tasks h) (records h)
         (calls h ++ [c]) (world h).

Definition with_world (w : World) (h : Hass) : Hass :=
  mkHass (data h) (entries h) (entry_data h) (tasks h) (records h)
         (calls h) w.

Definition with_ecobee (e : Ecobee) (d : EcobeeData) : EcobeeData :=
  mkEcobeeData (_entry d) e (_throttle d).

Definition with_throttle (t : option Z) (d : EcobeeData) : EcobeeData :=
  mkEcobeeData (_entry d) (ecobee d) t.

(** *** Python dicts *)

(** [d[key]]: the value, or [KeyError]. *)
Definition getitem {S V} (d : gmap string V) (key : string) : M S V :=
  match d !! key with
  | Some v => ret v
  | None => raise (KeyError key)
  end.

(** Truth value of a dict: non-empty. *)
Definition dict_truthy {V} (d : gmap string V) : bool :=
  negb (bool_decide (d = ∅)).

(** Truth value of what [hass.data] holds: a dict by its size, an
    [EcobeeData] object always true. *)
Definition truthy (v : DataValue) : bool :=
  match v with
  | ConfigBlock block => dict_truthy block
  | Coordinator _ => true
  end.

(** *** [hass] *)

(** A [hass]-level operation run inside a method. *)
Definition on_hass {A} (m : M Hass A) : M Self A :=
  fun s => let '(r, h') := m (snd s) in (r, (fst s, h')).

(** A block in which a freshly built object is the local [data]; the
    local goes out of scope when the block ends. *)
Definition with_local {A} (d : EcobeeData) (m : M Self A) : M Hass A :=
  fun h => let '(r, s') := m (d, h) in (r, snd s').

(** [hass.data[key] = value] *)
Definition data_setitem (key : string) (v : DataValue) : M Hass unit :=
  modify (with_data (fun m => <[key := v]> m)).

(** [hass.data[key]] *)
Definition data_getitem (key : string) : M Hass DataValue :=
  d <- gets data ;; getitem d key.

(** [hass.data.pop(key)]: no default, so [KeyError] when absent. *)
Definition data_pop (key : string) : M Hass DataValue :=
  d <- gets data ;;
  match d !! key with
  | Some v => modify (with_data (fun m => delete key m)) ;; ret v
  | None => raise (KeyError key)
  end.

(** [hass.async_create_task(coro)] *)
Definition async_create_task (t : Task) : M Hass unit :=
  modify (add_task t).

(** [_LOGGER.debug], [_LOGGER.warning], [_LOGGER.error] *)
Definition _LOGGER_log (lvl : Level) (msg : string) : M Hass unit :=
  modify (add_record (lvl, msg)).

(** [entry.data] *)
Definition data_of (entry : ConfigEntry) (h : Hass) : gmap string string :=
  default ∅ (entry_data h !! entry).

(** [entry.data[key]] *)
Definition entry_getitem (entry : ConfigEntry) (key : string)
    : M Hass string :=
  d <- gets (data_of entry) ;; getitem d key.

(** Modelled from the spec: [hass.config_entries.async_entries(domain)]
    of the hosting platform, whose source is not at hand: the durable
    entries that exist for the integration. *)
Definition async_entries (domain : string) : M Hass (list ConfigEntry) :=
  gets (fun h =>
    snd <$> List.filter (fun p => bool_decide (fst p = domain)) (entries h)).

(** Modelled from the spec: [hass.config_entries.async_update_entry]
    of the hosting platform, whose source is not at hand: it "writes
    the new {api_key, refresh_token} back into the durable entry
    record", replacing [entry.data] by the dict it is given. *)
Definition async_update_entry (entry : ConfigEntry)
    (new_data : gmap string string) : M Hass unit :=
  modify (fun h =>
    with_entry_data (fun m => <[entry := new_data]> m)
      (add_call (CallUpdateEntry entry new_data) h)).

(** [await hass.async_add_executor_job(self.ecobee.update)] *)
Definition executor_job_update : M Self unit :=
  fun s =>
    let '(r, eco, w) := Ecobee_update (ecobee (fst s)) (world (snd s)) in
    (r, (with_ecobee eco (fst s), with_world w (add_call CallUpdate (snd s)))).

(** [await hass.async_add_executor_job(self.ecobee.refresh_tokens)] *)
Definition executor_job_refresh_tokens : M Self bool :=
  fun s =>
    let '(r, eco, w) :=
      Ecobee_refresh_tokens (ecobee (fst s)) (world (snd s)) in
    (r, (with_ecobee eco (fst s),
         with_world w (add_call CallRefreshTokens (snd s)))).

(** [self.ecobee.config[key]] *)
Definition config_getitem (key : string) : M Self string :=
  c <- gets (fun s : Self => config (ecobee (fst s))) ;; getitem c key.

(** The coroutine [async_forward_entry_unload(entry, platform)] once
    it runs. *)
Definition forward_entry_unload (entry : ConfigEntry) (platform : string)
    : M Hass bool :=
  fun h =>
    let '(r, w) := async_forward_entry_unload entry platform (world h) in
    (r, with_world w (add_call (CallForwardEntryUnload entry platform) h)).

(** *** [asyncio.gather] and [all] *)

(** Every awaitable is run, whatever the others do; they are taken in
    the order of the argument list. *)
Fixpoint run_all {S A} (ts : list (M S A)) (s : S) : list (outcome A) * S :=
  match ts with
  | [] => ([], s)
  | t :: ts' =>
      let '(r, s1) := t s in
      let '(rs, s2) := run_all ts' s1 in
      (r :: rs, s2)
  end.

(** The results in order, or the first exception raised. *)
Fixpoint collect {A} (rs : list (outcome A)) : outcome (list A) :=
  match rs with
  | [] => Returned []
  | Raised e :: _ => Raised e
  | Returned a :: rs' =>
      match collect rs' with
      | Returned l => Returned (a :: l)
      | Raised e => Raised e
      end
  end.

(** [await asyncio.gather] on the awaitables [ts] *)
Definition gather {S A} (ts : list (M S A)) : M S (list A) :=
  fun s => let '(rs, s') := run_all ts s in (collect rs, s').

(** [all(results)] *)
Definition all (results : list bool) : bool := forallb id results.

(** *** The throttling decorator *)

(** Whether a call made at time [now] falls inside the interval opened
    by the last call that went through. *)
Definition throttled (min_time now : Z) (d : EcobeeData) : bool :=
  match _throttle d with
  | Some last => bool_decide (now - last < min_time)%Z
  | None => false
  end.

(** Modelled from the spec: the decorator [Throttle] of
    [homeassistant.util], whose source is not at hand.  The spec: "a
    time-gate ensuring a wrapped operation executes at most once per
    configured interval", which prevents calls "from firing the
    underlying network request more often than the configured
    interval"; its state is a timestamp kept by the wrapper, which
    "governs whether a call to update short-circuits (returns
    immediately without calling the external service) or executes"; a
    throttled call "returns none, no signal".  The timestamp is taken
    when a call is let through, before the wrapped operation runs, so
    that the interval is opened however that operation ends.  [now] is
    the clock reading of the call. *)
Definition Throttle (min_time : Z) (method : M Self unit) (now : Z)
    : M Self unit :=
  fun s =>
    if throttled min_time now (fst s) then (Returned tt, s)
    else method (with_throttle (Some now) (fst s), snd s).

(** ** The module *)

(** [EcobeeData.__init__] *)
Definition EcobeeData__init__ (entry : ConfigEntry)
    (api_key refresh_token : string) : EcobeeData :=
  mkEcobeeData entry
    (Ecobee__init__
       (<[ECOBEE_REFRESH_TOKEN := refresh_token]>
          (<[ECOBEE_API_KEY := api_key]> ∅)))
    None.

(** [EcobeeData.refresh] *)
Definition refresh : M Self bool :=
  on_hass (_LOGGER_log DEBUG
             "Refreshing ecobee tokens and updating config entry") ;;
  ok <- executor_job_refresh_tokens ;;
  if ok : bool then
    entry <- gets (fun s : Self => _entry (fst s)) ;;
    api_key <- config_getitem ECOBEE_API_KEY ;;
    refresh_token <- config_getitem ECOBEE_REFRESH_TOKEN ;;
    on_hass (async_update_entry entry
               (<[CONF_REFRESH_TOKEN := refresh_token]>
                  (<[CONF_API_KEY := api_key]> ∅))) ;;
    ret true
  else
    on_hass (_LOGGER_log ERROR "Error updating ecobee tokens") ;;
    ret false.

(** The body of [EcobeeData.update], under the decorator. *)
Definition update_wrapped : M Self unit :=
  try_except
    (executor_job_update ;;
     on_hass (_LOGGER_log DEBUG "Updating ecobee"))
    is_ExpiredTokenError
    (on_hass (_LOGGER_log WARNING
                "Ecobee update failed; attempting to refresh expired tokens") ;;
     _ <- refresh ;;
     ret tt).

(** [EcobeeData.update], as decorated by
    [@Throttle(MIN_TIME_BETWEEN_UPDATES)]. *)
Definition update (now : Z) : M Self unit :=
  Throttle MIN_TIME_BETWEEN_UPDATES update_wrapped now.

(** [async_setup] *)
Definition async_setup (config : gmap string (gmap string string))
    : M Hass bool :=
  data_setitem DATA_ECOBEE_CONFIG (ConfigBlock (default ∅ (config !! DOMAIN))) ;;
  existing <- async_entries DOMAIN ;;
  (match existing with
   | [] =>
       block <- data_getitem DATA_ECOBEE_CONFIG ;;
       if truthy block
       then async_create_task (FlowInit DOMAIN SOURCE_IMPORT)
       else ret tt
   | _ :: _ => ret tt
   end) ;;
  ret true.

(** [async_setup_entry]; [now] is the clock reading of its
    [data.update()]. *)
Definition async_setup_entry (now : Z) (entry : ConfigEntry) : M Hass bool :=
  api_key <- entry_getitem entry CONF_API_KEY ;;
  refresh_token <- entry_getitem entry CONF_REFRESH_TOKEN ;;
  with_local (EcobeeData__init__ entry api_key refresh_token)
    (ok <- refresh ;;
     if negb ok then ret false
     else
       update now ;;
       found <- gets (fun s : Self => thermostats (ecobee (fst s))) ;;
       match found with
       | None =>
           on_hass (_LOGGER_log ERROR "No ecobee devices found to set up") ;;
           ret false
       | Some _ =>
           self <- gets (fun s : Self => fst s) ;;
           on_hass (data_setitem DOMAIN (Coordinator self)) ;;
           on_hass (for_each ECOBEE_PLATFORMS (fun component =>
                      async_create_task (ForwardEntrySetup entry component))) ;;
           ret true
       end).

(** [async_unload_entry] *)
Definition async_unload_entry (config_entry : ConfigEntry) : M Hass bool :=
  data_pop DOMAIN ;;
  results <- gather (forward_entry_unload config_entry <$> ECOBEE_PLATFORMS) ;;
  ret (all results).

(** ** Observations on a run *)

(** How many times the data-fetch of the client has been called. *)
Definition fetch_calls (h : Hass) : nat :=
  length (List.filter is_CallUpdate (calls h)).

(** How many times the token refresh of the client has been called. *)
Definition refresh_tokens_calls (h : Hass) : nat :=
  length (List.filter is_CallRefreshTokens (calls h)).

(** The record [refresh] writes when it is entered. *)
Definition is_refresh_entered (r : Level * string) : bool :=
  match r with
  | (DEBUG, msg) =>
      bool_decide (msg = "Refreshing ecobee tokens and updating config entry")
  | _ => false
  end.

(** How many times [refresh] has been entered. *)
Definition refresh_runs (h : Hass) : nat :=
  length (List.filter is_refresh_entered (records h)).

(** The state in which the [except ExpiredTokenError] clause of
    [update] calls [refresh]: the client and the world as the failed
    fetch left them, and the warning logged. *)
Definition after_expired_fetch (s : Self) (eco : Ecobee) (w : World) : Self :=
  (with_ecobee eco (fst s),
   add_record
     (WARNING, "Ecobee update failed; attempting to refresh expired tokens")
     (with_world w (add_call CallUpdate (snd s)))).

(** Forget the value a call returned. *)
Definition discard {A} (o : outcome A) : outcome unit :=
  match o with Returned _ => Returned tt | Raised e => Raised e end.

(** What the platforms answer to the unload requests, one per platform
    in order, from the world [w] on. *)
Fixpoint unload_answers (entry : ConfigEntry) (platforms : list string)
    (w : World) : list (outcome bool) :=
  match platforms with
  | [] => []
  | p :: ps =>
      let '(r, w') := async_forward_entry_unload entry p w in
      r :: unload_answers entry ps w'
  end.

(** What [all(await asyncio.gather(...))] makes of the outcomes of the
    awaitables. *)
Definition all_of_gathered (rs : list (outcome bool)) : outcome bool :=
  match collect rs with
  | Returned l => Returned (all l)
  | Raised e => Raised e
  end.

(** How many times the platform has been asked to rewrite an entry. *)
Definition update_entry_calls (h : Hass) : nat :=
  length
    (List.filter
       (fun c => match c with CallUpdateEntry _ _ => true | _ => false end)
       (calls h)).

(** The records [refresh] appends, by the way it ended. *)
Definition refresh_records (o : outcome bool) : list (Level * string) :=
  (DEBUG, "Refreshing ecobee tokens and updating config entry")
  :: match o with
     | Returned false => [(ERROR, "Error updating ecobee tokens")]
     | _ => []
     end.

End Integration.

(** ** A scripted world, to run the module on concrete inputs *)

Module Scenario.

(** The values of the constants in the Home Assistant tree and in
    pyecobee. *)
#[export] Instance constants : Constants := {|
  DOMAIN := "ecobee";
  DATA_ECOBEE_CONFIG := "ecobee_config";
  CONF_API_KEY := "api_key";
  CONF_REFRESH_TOKEN := "refresh_token";
  ECOBEE_API_KEY := "API_KEY";
  ECOBEE_REFRESH_TOKEN := "REFRESH_TOKEN";
  ECOBEE_PLATFORMS := ["binary_sensor"; "climate"; "sensor"; "weather"];
  SOURCE_IMPORT := "import"
|}.

(** What the vendor service answers to the next calls: each reply says
    how the call ends and what the client object holds afterwards. *)
Record Script : Type := mkScript {
  update_replies : list (outcome unit * option (list Thermostat));
  refresh_replies : list (outcome bool * gmap string string);
  unload_replies : list (string * outcome bool)
}.

Definition scripted_update (e : Ecobee) (w : Script)
    : outcome unit * Ecobee * Script :=
  match update_replies w with
  | [] => (Raised (OtherError "ConnectionError"), e, w)
  | (r, th) :: rest =>
      (r, mkEcobee (config e) th,
       mkScript rest (refresh_replies w) (unload_replies w))
  end.

Definition scripted_refresh_tokens (e : Ecobee) (w : Script)
    : outcome bool * Ecobee * Script :=
  match refresh_replies w with
  | [] => (Returned false, e, w)
  | (r, cfg) :: rest =>
      (r, mkEcobee cfg (thermostats e),
       mkScript (update_replies w) rest (unload_replies w))
  end.

Definition scripted_unload (entry : ConfigEntry) (platform : string)
    (w : Script) : outcome bool * Script :=
  match List.find (fun p => bool_decide (fst p = platform)) (unload_replies w) with
  | Some (_, r) => (r, w)
  | None => (Returned true, w)
  end.

#[export] Instance collaborators : Collaborators Script := {|
  Ecobee__init__ cfg := mkEcobee cfg None;
  Ecobee_update := scripted_update;
  Ecobee_refresh_tokens := scripted_refresh_tokens;
  async_forward_entry_unload := scripted_unload
|}.

Definition credentials (api_key refresh_token : string) : gmap string string :=
  <[ECOBEE_REFRESH_TOKEN := refresh_token]> (<[ECOBEE_API_KEY := api_key]> ∅).

Definition stored (api_key refresh_token : string) : gmap string string :=
  <[CONF_REFRESH_TOKEN := refresh_token]> (<[CONF_API_KEY := api_key]> ∅).

(** A process with one ecobee entry (object 0) holding K1, R1. *)
Definition hass0 (w : Script) : HomeAssistant Script :=
  mkHass ∅ [("ecobee", 0)] {[ 0 := stored "K1" "R1" ]} [] [] [] w.

Definition data0 : EcobeeData := EcobeeData__init__ 0 "K1" "R1".

(** The vendor hands out the new pair K2, R2. *)
Definition refreshed : Script :=
  mkScript [] [(Returned true, credentials "K2" "R2")] [].

(** The vendor refuses the refresh token: the client returns false. *)
Definition refused : Script :=
  mkScript [] [(Returned false, credentials "K1" "R1")] [].

(** The token refresh of the client raises. *)
Definition broken : Script :=
  mkScript [] [(Raised (OtherError "JSONDecodeError"), credentials "K1" "R1")] [].

(** The token refresh returns true and leaves a config without keys. *)
Definition keyless : Script :=
  mkScript [] [(Returned true, ∅)] [].

(** The refresh succeeds, then the data-fetch finds the given
    thermostats. *)
Definition polled (found : option (list Thermostat)) : Script :=
  mkScript [(Returned tt, found)] [(Returned true, credentials "K2" "R2")] [].

(** The data-fetch ends with the given exception; a refresh would
    succeed. *)
Definition failing_fetch (e : exn) : Script :=
  mkScript [(Raised e, None)] [(Returned true, credentials "K2" "R2")] [].

(** The climate platform answers false to the unload request. *)
Definition climate_stuck : Script :=
  mkScript [] [] [("climate", Returned false)].

(** A process in which the coordinator is registered. *)
Definition hass_loaded (w : Script) : HomeAssistant Script :=
  mkHass {[ "ecobee" := Coordinator data0 ]} [("ecobee", 0)]
         {[ 0 := stored "K1" "R1" ]} [] [] [] w.

(** The data-fetch raises [ExpiredTokenError] and the vendor then
    refuses the refresh token. *)
Definition expired_and_refused : Script :=
  mkScript [(Raised ExpiredTokenError, None)]
           [(Returned false, credentials "K1" "R1")] [].

(** The sensor platform raises on the unload request. *)
Definition sensor_crashes : Script :=
  mkScript [] [] [("sensor", Raised (OtherError "RuntimeError"))].

(** A process whose entry (object 0) holds no credentials. *)
Definition hass_blank (w : Script) : HomeAssistant Script :=
  mkHass ∅ [("ecobee", 0)] ∅ [] [] [] w.

End Scenario.


(** * Properties *)

Section Properties.
Context {K : Constants} {World : Type} {X : Collaborators World}.

Local Open Scope py_scope.

Local Abbreviation Hass := (HomeAssistant World).
Local Abbreviation Self := (EcobeeData * HomeAssistant World)%type.

(** Unfolds the monad and the primitive operations. *)
Ltac py_step :=
  unfold bind, ret, raise, gets, modify, try_except, on_hass, with_local,
    getitem, data_setitem, data_getitem, data_pop,
    _LOGGER_log, entry_getitem, async_entries, async_update_entry,
    executor_job_update, executor_job_refresh_tokens, config_getitem in *.

Ltac py_unfold := repeat (progress (py_step; simpl in *)).

(** ** [refresh] *)

(** [refresh], case by case on what the client does. *)
Lemma refresh_cases (s : Self) :
  let h1 := add_record
              (DEBUG, "Refreshing ecobee tokens and updating config entry")
              (snd s) in
  let '(r, eco, w) := Ecobee_refresh_tokens (ecobee (fst s)) (world (snd s)) in
  let d1 := with_ecobee eco (fst s) in
  let h2 := with_world w (add_call CallRefreshTokens h1) in
  refresh s =
    match r with
    | Raised e => (Raised e, (d1, h2))
    | Returned false =>
        (Returned false, (d1, add_record (ERROR, "Error updating ecobee tokens") h2))
    | Returned true =>
        match config eco !! ECOBEE_API_KEY with
        | None => (Raised (KeyError ECOBEE_API_KEY), (d1, h2))
        | Some a =>
            match config eco !! ECOBEE_REFRESH_TOKEN with
            | None => (Raised (KeyError ECOBEE_REFRESH_TOKEN), (d1, h2))
            | Some t =>
                let new_data :=
                  <[CONF_REFRESH_TOKEN := t]> (<[CONF_API_KEY := a]> ∅) in
                (Returned true,
                 (d1, with_entry_data (fun m => <[_entry (fst s) := new_data]> m)
                        (add_call (CallUpdateEntry (_entry (fst s)) new_data) h2)))
            end
        end
    end.
Proof.
  destruct s as [d h]. unfold refresh. py_unfold. simpl.
  destruct (Ecobee_refresh_tokens (ecobee d) (world h)) as [[r eco] w].
  destruct r as [[|]|e]; simpl; try reflexivity.
  destruct (config eco !! ECOBEE_API_KEY) as [a|]; simpl; try reflexivity.
  destruct (config eco !! ECOBEE_REFRESH_TOKEN) as [t|]; simpl; reflexivity.
Qed.

(** The entry store is untouched unless [refresh] returns true. *)
Lemma refresh_writes_entry_only_on_success (s : Self) :
  fst (refresh s) <> Returned true ->
  entry_data (snd (snd (refresh s))) = entry_data (snd s).
Proof.
  intros Hr. pose proof (refresh_cases s) as Hc. simpl in Hc.
  destruct (Ecobee_refresh_tokens (ecobee (fst s)) (world (snd s)))
    as [[r eco] w].
  rewrite Hc in Hr |- *. clear Hc.
  destruct r as [[|]|e]; try reflexivity.
  destruct (config eco !! ECOBEE_API_KEY); try reflexivity.
  destruct (config eco !! ECOBEE_REFRESH_TOKEN); try reflexivity.
  simpl in Hr. congruence.
Qed.

(** C1. When [refresh] returns true, the entry of the coordinator
    holds, under [CONF_API_KEY] and [CONF_REFRESH_TOKEN], exactly the
    values the client holds under [ECOBEE_API_KEY] and
    [ECOBEE_REFRESH_TOKEN] at that moment, and nothing else; the dict
    of that pair is what [refresh] passed to [async_update_entry],
    right after the one token refresh of the client. *)
Theorem refresh_success_syncs_entry (s s' : Self) :
  CONF_API_KEY <> CONF_REFRESH_TOKEN ->
  refresh s = (Returned true, s') ->
  _entry (fst s') = _entry (fst s) /\
  data_of (_entry (fst s')) (snd s') !! CONF_API_KEY
    = config (ecobee (fst s')) !! ECOBEE_API_KEY /\
  data_of (_entry (fst s')) (snd s') !! CONF_REFRESH_TOKEN
    = config (ecobee (fst s')) !! ECOBEE_REFRESH_TOKEN /\
  exists api_key refresh_token,
    config (ecobee (fst s')) !! ECOBEE_API_KEY = Some api_key /\
    config (ecobee (fst s')) !! ECOBEE_REFRESH_TOKEN = Some refresh_token /\
    data_of (_entry (fst s')) (snd s')
      = <[CONF_REFRESH_TOKEN := refresh_token]> (<[CONF_API_KEY := api_key]> ∅) /\
    calls (snd s')
      = calls (snd s) ++
        [CallRefreshTokens;
         CallUpdateEntry (_entry (fst s))
           (<[CONF_REFRESH_TOKEN := refresh_token]>
              (<[CONF_API_KEY := api_key]> ∅))].
Proof.
  intros Hne Hr. pose proof (refresh_cases s) as Hc. simpl in Hc.
  destruct (Ecobee_refresh_tokens (ecobee (fst s)) (world (snd s)))
    as [[r eco] w].
  rewrite Hc in Hr. clear Hc.
  destruct r as [[|]|e]; try discriminate.
  destruct (config eco !! ECOBEE_API_KEY) as [a|] eqn:Ha; try discriminate.
  destruct (config eco !! ECOBEE_REFRESH_TOKEN) as [t|] eqn:Ht;
    try discriminate.
  injection Hr as <-. simpl. unfold data_of. simpl.
  rewrite lookup_insert_eq. simpl.
  rewrite lookup_insert_ne by congruence.
  rewrite !lookup_insert_eq. rewrite Ha, Ht.
  repeat split. exists a, t. repeat split.
  rewrite <- app_assoc. reflexivity.
Qed.

(** C8, as the code has it.  [refresh] ends the way the token refresh
    of the client ends: it returns false when the client returns a
    false value, returns true when the client returns a true value and
    the client's config holds both credential keys, and raises what
    the client raises: there is no handler around the call. *)
Theorem refresh_ends_as_client_does (s : Self) r eco w :
  Ecobee_refresh_tokens (ecobee (fst s)) (world (snd s)) = (r, eco, w) ->
  (r = Returned false -> fst (refresh s) = Returned false) /\
  (r = Returned true ->
   is_Some (config eco !! ECOBEE_API_KEY) ->
   is_Some (config eco !! ECOBEE_REFRESH_TOKEN) ->
   fst (refresh s) = Returned true) /\
  (forall e, r = Raised e -> fst (refresh s) = Raised e).
Proof.
  intros Hx. pose proof (refresh_cases s) as Hc. simpl in Hc.
  rewrite Hx in Hc. rewrite Hc. clear Hc.
  split; [|split].
  - intros ->. reflexivity.
  - intros -> [a Ha] [t Ht]. rewrite Ha, Ht. reflexivity.
  - intros e ->. reflexivity.
Qed.

(** C9. When [refresh] returns false, no entry record has been
    touched: the stored data of every entry is what it was. *)
Theorem refresh_failure_keeps_entry (s : Self) :
  fst (refresh s) = Returned false ->
  entry_data (snd (snd (refresh s))) = entry_data (snd s) /\
  forall entry,
    data_of entry (snd (snd (refresh s))) = data_of entry (snd s).
Proof.
  intros Hr.
  assert (entry_data (snd (snd (refresh s))) = entry_data (snd s)) as He.
  { apply refresh_writes_entry_only_on_success. rewrite Hr. discriminate. }
  split; [exact He|]. intros entry. unfold data_of. rewrite He. reflexivity.
Qed.

(** ** Counting calls and records *)

Lemma count_snoc {A} (p : A -> bool) (l : list A) (x : A) :
  length (List.filter p (l ++ [x]))
  = length (List.filter p l) + (if p x then 1 else 0).
Proof.
  rewrite List.filter_app, length_app. simpl. destruct (p x); reflexivity.
Qed.

(** [refresh] enters once, calls the token refresh of the client once
    and never calls the data-fetch, however it ends. *)
Lemma refresh_counts (s : Self) :
  refresh_runs (snd (snd (refresh s))) = refresh_runs (snd s) + 1 /\
  refresh_tokens_calls (snd (snd (refresh s)))
    = refresh_tokens_calls (snd s) + 1 /\
  fetch_calls (snd (snd (refresh s))) = fetch_calls (snd s).
Proof.
  pose proof (refresh_cases s) as Hc. simpl in Hc.
  destruct (Ecobee_refresh_tokens (ecobee (fst s)) (world (snd s)))
    as [[r eco] w].
  rewrite Hc. clear Hc.
  unfold refresh_runs, refresh_tokens_calls, fetch_calls.
  destruct r as [[|]|e];
    [destruct (config eco !! ECOBEE_API_KEY);
     [destruct (config eco !! ECOBEE_REFRESH_TOKEN)|]| |];
    simpl; rewrite ?count_snoc; simpl; repeat split; lia.
Qed.

(** ** [update] *)

(** The body of [update], case by case on what the data-fetch does. *)
Lemma update_wrapped_cases (s : Self) :
  let '(r, eco, w) := Ecobee_update (ecobee (fst s)) (world (snd s)) in
  let d1 := with_ecobee eco (fst s) in
  let h1 := with_world w (add_call CallUpdate (snd s)) in
  update_wrapped s =
    match r with
    | Returned _ => (Returned tt, (d1, add_record (DEBUG, "Updating ecobee") h1))
    | Raised e =>
        if is_ExpiredTokenError e
        then (discard (fst (refresh (after_expired_fetch s eco w))),
              snd (refresh (after_expired_fetch s eco w)))
        else (Raised e, (d1, h1))
    end.
Proof.
  destruct s as [d h]. unfold update_wrapped, after_expired_fetch.
  py_unfold.
  destruct (Ecobee_update (ecobee d) (world h)) as [[r eco] w].
  destruct r as [[]|e]; simpl; try reflexivity.
  destruct (is_ExpiredTokenError e); try reflexivity.
  destruct (refresh _) as [[b|e'] s']; reflexivity.
Qed.

(** The body of [update] calls the data-fetch exactly once, however it
    ends. *)
Lemma update_wrapped_fetches_once (s : Self) :
  fetch_calls (snd (snd (update_wrapped s))) = fetch_calls (snd s) + 1.
Proof.
  pose proof (update_wrapped_cases s) as Hc.
  destruct (Ecobee_update (ecobee (fst s)) (world (snd s))) as [[r eco] w].
  simpl in Hc. rewrite Hc. clear Hc.
  destruct r as [[]|e].
  - unfold fetch_calls. simpl. rewrite count_snoc. reflexivity.
  - destruct (is_ExpiredTokenError e).
    + simpl. destruct (refresh_counts (after_expired_fetch s eco w))
        as (_ & _ & ->).
      unfold fetch_calls, after_expired_fetch. simpl.
      rewrite count_snoc. reflexivity.
    + unfold fetch_calls. simpl. rewrite count_snoc. reflexivity.
Qed.

(** The stamp of the throttle plays no part in [refresh]: stamping
    before it or after it is the same. *)
Lemma refresh_stamp (t : option Z) (s : Self) :
  refresh (with_throttle t (fst s), snd s)
  = (fst (refresh s),
     (with_throttle t (fst (snd (refresh s))), snd (snd (refresh s)))).
Proof.
  pose proof (refresh_cases s) as Hc.
  pose proof (refresh_cases (with_throttle t (fst s), snd s)) as Hc'.
  simpl in Hc, Hc'.
  destruct (Ecobee_refresh_tokens (ecobee (fst s)) (world (snd s)))
    as [[r eco] w].
  rewrite Hc, Hc'. clear Hc Hc'.
  destruct r as [[|]|e];
    [destruct (config eco !! ECOBEE_API_KEY);
     [destruct (config eco !! ECOBEE_REFRESH_TOKEN)|]| |];
    reflexivity.
Qed.

(** Nor in the body of [update]. *)
Lemma update_wrapped_stamp (t : option Z) (s : Self) :
  update_wrapped (with_throttle t (fst s), snd s)
  = (fst (update_wrapped s),
     (with_throttle t (fst (snd (update_wrapped s))),
      snd (snd (update_wrapped s)))).
Proof.
  pose proof (update_wrapped_cases s) as Hc.
  pose proof (update_wrapped_cases (with_throttle t (fst s), snd s)) as Hc'.
  simpl in Hc, Hc'.
  destruct (Ecobee_update (ecobee (fst s)) (world (snd s))) as [[r eco] w].
  rewrite Hc, Hc'. clear Hc Hc'.
  destruct r as [[]|e]; [reflexivity|].
  destruct (is_ExpiredTokenError e); [|reflexivity].
  change (after_expired_fetch (with_throttle t (fst s), snd s) eco w)
    with (with_throttle t (fst (after_expired_fetch s eco w)),
          snd (after_expired_fetch s eco w)).
  rewrite refresh_stamp. reflexivity.
Qed.

(** An [update] the gate lets through is its body, with the call time
    stamped on the coordinator however the body ends. *)
Lemma update_open (now : Z) (s : Self) :
  throttled MIN_TIME_BETWEEN_UPDATES now (fst s) = false ->
  update now s =
    match update_wrapped s with
    | (Returned _, s1) => (Returned tt, (with_throttle (Some now) (fst s1), snd s1))
    | (Raised e, s1) => (Raised e, (with_throttle (Some now) (fst s1), snd s1))
    end.
Proof.
  intros Hopen. unfold update, Throttle. rewrite Hopen.
  rewrite update_wrapped_stamp.
  destruct (update_wrapped s) as [[[]|e] s1]; reflexivity.
Qed.

(** An [update] inside the interval does nothing and returns [None]. *)
Lemma update_throttled (now : Z) (s : Self) :
  throttled MIN_TIME_BETWEEN_UPDATES now (fst s) = true ->
  update now s = (Returned tt, s).
Proof.
  intros Hth. unfold update, Throttle. rewrite Hth. reflexivity.
Qed.

(** C2. Two calls of [update], the first let through at [t0] and the
    second made less than 180 seconds after it.  However the first
    call ended, returning or raising, the second returns [None] and
    leaves the coordinator and [hass] as they were (no call, no log
    record, no exception), and the data-fetch of the client has been
    called exactly once over the two calls. *)
Theorem update_twice_fetches_once (t0 t1 : Z) (s : Self) :
  throttled MIN_TIME_BETWEEN_UPDATES t0 (fst s) = false ->
  (t1 - t0 < timedelta_seconds 180)%Z ->
  update t1 (snd (update t0 s)) = (Returned tt, snd (update t0 s)) /\
  fetch_calls (snd (snd (update t1 (snd (update t0 s)))))
    = fetch_calls (snd s) + 1 /\
  fetch_calls (snd (snd ((update t0 ;; update t1) s)))
    = fetch_calls (snd s) + 1.
Proof.
  intros Hopen Hlt.
  pose proof (update_wrapped_fetches_once s) as Hn.
  assert (throttled MIN_TIME_BETWEEN_UPDATES t1 (fst (snd (update t0 s)))
          = true) as Hclosed.
  { rewrite (update_open t0 s Hopen).
    destruct (update_wrapped s) as [[[]|e] s1]; unfold throttled; simpl;
      apply bool_decide_eq_true; exact Hlt. }
  assert (fetch_calls (snd (snd (update t0 s))) = fetch_calls (snd s) + 1)
    as Hfirst.
  { rewrite (update_open t0 s Hopen).
    destruct (update_wrapped s) as [[[]|e] s1]; exact Hn. }
  pose proof (update_throttled t1 _ Hclosed) as Hsecond.
  split; [exact Hsecond|]. split.
  - rewrite Hsecond. exact Hfirst.
  - unfold bind.
    destruct (update t0 s) as [[[]|e] s1]; simpl in *.
    + rewrite Hsecond. exact Hfirst.
    + exact Hfirst.
Qed.

(** C3. When the data-fetch inside [update] raises
    [ExpiredTokenError], [update] logs the warning and runs [refresh]
    once: it ends as that run of [refresh] ends, so the error of the
    fetch does not reach the caller, and [update] returns [None]
    whenever [refresh] returns, true or false.  When the data-fetch
    raises anything else, [update] raises it to the caller and
    [refresh] is not run. *)
Theorem update_catches_expired_token_only (now : Z) (s : Self) e eco w :
  throttled MIN_TIME_BETWEEN_UPDATES now (fst s) = false ->
  Ecobee_update (ecobee (fst s)) (world (snd s)) = (Raised e, eco, w) ->
  (e = ExpiredTokenError ->
   fst (update now s) = discard (fst (refresh (after_expired_fetch s eco w))) /\
   (returned (fst (refresh (after_expired_fetch s eco w))) = true ->
    fst (update now s) = Returned tt) /\
   refresh_runs (snd (snd (update now s))) = refresh_runs (snd s) + 1 /\
   refresh_tokens_calls (snd (snd (update now s)))
     = refresh_tokens_calls (snd s) + 1) /\
  (e <> ExpiredTokenError ->
   fst (update now s) = Raised e /\
   refresh_runs (snd (snd (update now s))) = refresh_runs (snd s) /\
   refresh_tokens_calls (snd (snd (update now s)))
     = refresh_tokens_calls (snd s)).
Proof.
  intros Hopen Hx.
  rewrite (update_open now s Hopen).
  pose proof (update_wrapped_cases s) as Hc. rewrite Hx in Hc. simpl in Hc.
  rewrite Hc. clear Hc. split.
  - intros ->. simpl.
    destruct (refresh_counts (after_expired_fetch s eco w))
      as (Hruns & Hcalls & _).
    destruct (refresh (after_expired_fetch s eco w)) as [[b|e'] s1];
      simpl in *; rewrite Hruns, Hcalls;
      unfold refresh_runs, refresh_tokens_calls, after_expired_fetch; simpl;
      rewrite !count_snoc; simpl; repeat split; try lia; discriminate.
  - intros Hne.
    assert (is_ExpiredTokenError e = false) as ->
      by (destruct e; try reflexivity; congruence).
    simpl. unfold refresh_runs, refresh_tokens_calls. simpl.
    rewrite count_snoc. simpl. repeat split; lia.
Qed.

(** ** [async_setup_entry] *)

(** [refresh] leaves [hass.data] and the scheduled tasks alone. *)
Lemma refresh_keeps_data (s : Self) :
  data (snd (snd (refresh s))) = data (snd s) /\
  tasks (snd (snd (refresh s))) = tasks (snd s).
Proof.
  pose proof (refresh_cases s) as Hc. simpl in Hc.
  destruct (Ecobee_refresh_tokens (ecobee (fst s)) (world (snd s)))
    as [[r eco] w].
  rewrite Hc. clear Hc.
  destruct r as [[|]|e];
    [destruct (config eco !! ECOBEE_API_KEY);
     [destruct (config eco !! ECOBEE_REFRESH_TOKEN)|]| |];
    split; reflexivity.
Qed.

(** So does [update]. *)
Lemma update_keeps_data (now : Z) (s : Self) :
  data (snd (snd (update now s))) = data (snd s) /\
  tasks (snd (snd (update now s))) = tasks (snd s).
Proof.
  destruct (throttled MIN_TIME_BETWEEN_UPDATES now (fst s)) eqn:Hth.
  - rewrite (update_throttled now s Hth). split; reflexivity.
  - rewrite (update_open now s Hth).
    pose proof (update_wrapped_cases s) as Hc.
    destruct (Ecobee_update (ecobee (fst s)) (world (snd s))) as [[r eco] w].
    simpl in Hc. rewrite Hc. clear Hc.
    destruct r as [[]|e]; [split; reflexivity|].
    destruct (is_ExpiredTokenError e); [|split; reflexivity].
    destruct (refresh_keeps_data (after_expired_fetch s eco w)) as [Hd Ht].
    destruct (refresh (after_expired_fetch s eco w)) as [[b|e'] s1];
      simpl in *; rewrite Hd, Ht; split; reflexivity.
Qed.

(** The loop over [ECOBEE_PLATFORMS] in [async_setup_entry] schedules
    one forward-setup per platform and changes nothing else. *)
Lemma forward_setup_loop (entry : ConfigEntry) (ps : list string) (h : Hass) :
  for_each ps (fun component =>
                 async_create_task (ForwardEntrySetup entry component)) h
  = (Returned tt,
     mkHass (data h) (entries h) (entry_data h)
       (tasks h ++ (ForwardEntrySetup entry <$> ps))
       (records h) (calls h) (world h)).
Proof.
  revert h. induction ps as [|p ps IH]; intros h; simpl.
  - rewrite app_nil_r. destruct h; reflexivity.
  - unfold async_create_task at 1. py_unfold. rewrite IH. simpl.
    rewrite <- app_assoc. reflexivity.
Qed.

(** [async_setup_entry] once the entry holds both keys, case by case
    on what [refresh] and [update] do. *)
Lemma async_setup_entry_cases (now : Z) (entry : ConfigEntry) (h : Hass) a t :
  data_of entry h !! CONF_API_KEY = Some a ->
  data_of entry h !! CONF_REFRESH_TOKEN = Some t ->
  async_setup_entry now entry h =
    match refresh (EcobeeData__init__ entry a t, h) with
    | (Raised e, s1) => (Raised e, snd s1)
    | (Returned false, s1) => (Returned false, snd s1)
    | (Returned true, s1) =>
        match update now s1 with
        | (Raised e, s2) => (Raised e, snd s2)
        | (Returned _, s2) =>
            match thermostats (ecobee (fst s2)) with
            | None =>
                (Returned false,
                 add_record (ERROR, "No ecobee devices found to set up") (snd s2))
            | Some _ =>
                (Returned true,
                 let h3 := with_data (fun m => <[DOMAIN := Coordinator (fst s2)]> m)
                             (snd s2) in
                 mkHass (data h3) (entries h3) (entry_data h3)
                   (tasks h3 ++ (ForwardEntrySetup entry <$> ECOBEE_PLATFORMS))
                   (records h3) (calls h3) (world h3))
            end
        end
    end.
Proof.
  intros Ha Ht. unfold async_setup_entry. py_unfold. rewrite Ha, Ht. simpl.
  destruct (refresh _) as [[[|]|e] s1]; simpl; try reflexivity.
  destruct (update now s1) as [[[]|e] s2]; simpl; try reflexivity.
  destruct (thermostats (ecobee (fst s2))); simpl; try reflexivity.
  rewrite forward_setup_loop. reflexivity.
Qed.

(** C4. When the [refresh] of [async_setup_entry] returns false, the
    setup returns false, raising nothing, and neither [hass.data] (so
    no coordinator under [DOMAIN]) nor the scheduled tasks have
    changed. *)
Theorem setup_fails_when_refresh_fails
    (now : Z) (entry : ConfigEntry) (h : Hass) a t :
  data_of entry h !! CONF_API_KEY = Some a ->
  data_of entry h !! CONF_REFRESH_TOKEN = Some t ->
  fst (refresh (EcobeeData__init__ entry a t, h)) = Returned false ->
  fst (async_setup_entry now entry h) = Returned false /\
  data (snd (async_setup_entry now entry h)) = data h /\
  tasks (snd (async_setup_entry now entry h)) = tasks h.
Proof.
  intros Ha Ht Hr. rewrite (async_setup_entry_cases now entry h a t Ha Ht).
  destruct (refresh_keeps_data (EcobeeData__init__ entry a t, h)) as [Hd Hk].
  destruct (refresh _) as [[[|]|e] s1]; simpl in *; try discriminate.
  repeat split; assumption.
Qed.

(** C5, as the code has it.  After a [refresh] that returned true and
    an [update] that returned, the setup fails exactly when the
    client's [thermostats] is [None]: it then returns false and
    registers nothing.  When [thermostats] is a list, the empty one
    included, the setup returns true and registers the coordinator
    under [DOMAIN]. *)
Theorem setup_fails_iff_thermostats_is_None
    (now : Z) (entry : ConfigEntry) (h : Hass) a t (s1 s2 : Self) :
  data_of entry h !! CONF_API_KEY = Some a ->
  data_of entry h !! CONF_REFRESH_TOKEN = Some t ->
  refresh (EcobeeData__init__ entry a t, h) = (Returned true, s1) ->
  update now s1 = (Returned tt, s2) ->
  (thermostats (ecobee (fst s2)) = None ->
   fst (async_setup_entry now entry h) = Returned false /\
   data (snd (async_setup_entry now entry h)) = data h) /\
  (forall found, thermostats (ecobee (fst s2)) = Some found ->
   fst (async_setup_entry now entry h) = Returned true /\
   data (snd (async_setup_entry now entry h))
     = <[DOMAIN := Coordinator (fst s2)]> (data h)).
Proof.
  intros Ha Ht Hr Hu. rewrite (async_setup_entry_cases now entry h a t Ha Ht).
  destruct (refresh_keeps_data (EcobeeData__init__ entry a t, h)) as [Hd _].
  destruct (update_keeps_data now s1) as [Hd' _].
  rewrite Hr in Hd |- *. rewrite Hu in Hd' |- *. simpl in *.
  split.
  - intros ->. simpl. split; [reflexivity|congruence].
  - intros found ->. simpl. split; [reflexivity|]. congruence.
Qed.

(** ** [async_setup] *)

(** [async_setup] always returns true; it stores the configuration
    block under [DATA_ECOBEE_CONFIG] and schedules the import flow when
    there is no entry of the domain and the stored block is true as a
    Python value. *)
Lemma async_setup_cases (cfg : gmap string (gmap string string)) (h : Hass) :
  async_setup cfg h =
    let block := default ∅ (cfg !! DOMAIN) in
    let h1 := with_data (fun m => <[DATA_ECOBEE_CONFIG := ConfigBlock block]> m) h in
    (Returned true,
     match List.filter (fun p => bool_decide (fst p = DOMAIN)) (entries h) with
     | [] => if dict_truthy block
             then add_task (FlowInit DOMAIN SOURCE_IMPORT) h1
             else h1
     | _ :: _ => h1
     end).
Proof.
  unfold async_setup. py_unfold.
  destruct (List.filter _ (entries h)) as [|p l]; simpl; [|reflexivity].
  rewrite lookup_insert_eq. simpl.
  destruct (dict_truthy _); reflexivity.
Qed.

(** With no entry of the domain and a block that is not empty, the
    import flow is scheduled. *)
Lemma async_setup_imports_nonempty_block
    (cfg : gmap string (gmap string string)) (h : Hass) block :
  entries h = [] -> cfg !! DOMAIN = Some block -> block <> ∅ ->
  tasks (snd (async_setup cfg h)) = tasks h ++ [FlowInit DOMAIN SOURCE_IMPORT].
Proof.
  intros He Hc Hb. rewrite async_setup_cases, He, Hc. simpl.
  unfold dict_truthy. rewrite bool_decide_eq_false_2 by exact Hb. reflexivity.
Qed.

(** With no block in the configuration nothing is scheduled. *)
Lemma async_setup_without_block (cfg : gmap string (gmap string string))
    (h : Hass) :
  cfg !! DOMAIN = None -> tasks (snd (async_setup cfg h)) = tasks h.
Proof.
  intros Hc. rewrite async_setup_cases, Hc. simpl.
  destruct (List.filter _ (entries h)); reflexivity.
Qed.

(** With an entry of the domain nothing is scheduled. *)
Lemma async_setup_with_entry (cfg : gmap string (gmap string string))
    (h : Hass) entry :
  (DOMAIN, entry) ∈ entries h -> tasks (snd (async_setup cfg h)) = tasks h.
Proof.
  intros Hin. rewrite async_setup_cases. simpl.
  destruct (List.filter _ (entries h)) as [|p l] eqn:Hf; [|reflexivity].
  exfalso. apply list_elem_of_In in Hin.
  assert (In (DOMAIN, entry)
            (List.filter (fun p => bool_decide (fst p = DOMAIN)) (entries h)))
    as Hin'.
  { apply List.filter_In. split; [exact Hin|].
    apply bool_decide_eq_true. reflexivity. }
  rewrite Hf in Hin'. destruct Hin'.
Qed.

(** C6, the code at the failing input.  With no entry at all and a
    configuration whose block for [DOMAIN] is present and empty,
    [async_setup] returns true and schedules nothing: the empty block
    is stored and then tested by its truth value, which is false. *)
Theorem async_setup_skips_empty_block
    (d : gmap string DataValue) (ed : gmap ConfigEntry (gmap string string))
    (ts : list Task) (rs : list (Level * string)) (cs : list Call) (w : World) :
  fst (async_setup {[DOMAIN := ∅]} (mkHass d [] ed ts rs cs w)) = Returned true /\
  tasks (snd (async_setup {[DOMAIN := ∅]} (mkHass d [] ed ts rs cs w))) = ts.
Proof.
  rewrite async_setup_cases. simpl. rewrite lookup_singleton_eq. simpl.
  split; reflexivity.
Qed.

(** ** [async_unload_entry] *)

(** Running the forward-unload coroutines: the answers are those of the
    platforms, one call per platform is recorded, and [hass.data] is
    not touched. *)
Lemma run_all_forward_unload (entry : ConfigEntry) (ps : list string) (h : Hass) :
  fst (run_all (forward_entry_unload entry <$> ps) h)
    = unload_answers entry ps (world h) /\
  data (snd (run_all (forward_entry_unload entry <$> ps) h)) = data h /\
  calls (snd (run_all (forward_entry_unload entry <$> ps) h))
    = calls h ++ (CallForwardEntryUnload entry <$> ps).
Proof.
  revert h. induction ps as [|p ps IH]; intros h; simpl.
  - rewrite app_nil_r. repeat split.
  - unfold forward_entry_unload at 1 3 5.
    destruct (async_forward_entry_unload entry p (world h)) as [r w] eqn:Hx.
    specialize (IH (with_world w (add_call (CallForwardEntryUnload entry p) h))).
    destruct (run_all _ _) as [rs s2]. simpl in *.
    destruct IH as (-> & -> & ->). rewrite <- app_assoc. repeat split.
Qed.

Lemma unload_answers_length (entry : ConfigEntry) (ps : list string) (w : World) :
  length (unload_answers entry ps w) = length ps.
Proof.
  revert w. induction ps as [|p ps IH]; intros w; simpl; [reflexivity|].
  destruct (async_forward_entry_unload entry p w) as [r w']. simpl.
  rewrite IH. reflexivity.
Qed.

(** The result is true exactly when every awaitable returned true. *)
Lemma all_of_gathered_true (rs : list (outcome bool)) :
  all_of_gathered rs = Returned true <-> Forall (fun o => o = Returned true) rs.
Proof.
  unfold all_of_gathered. induction rs as [|o rs IH]; simpl.
  - split; [constructor|reflexivity].
  - destruct o as [b|e].
    + destruct (collect rs) as [l|e']; simpl in *.
      * destruct b; simpl.
        -- rewrite IH. split; [intros H; constructor; [reflexivity|exact H]|].
           intros H. inversion H; assumption.
        -- split; [discriminate|]. intros H. inversion H; discriminate.
      * split; [discriminate|]. intros H. inversion H as [|? ? _ H'].
        apply IH in H'. discriminate.
    + split; [discriminate|]. intros H. inversion H; discriminate.
Qed.

(** When every awaitable returned and one of them returned false, the
    result is false. *)
Lemma all_of_gathered_false (rs : list (outcome bool)) :
  Forall (fun o => returned o = true) rs ->
  Exists (fun o => o = Returned false) rs ->
  all_of_gathered rs = Returned false.
Proof.
  unfold all_of_gathered. intros Hret Hex.
  induction rs as [|o rs IH]; [inversion Hex|].
  inversion Hret as [|? ? Ho Hrs]; subst. simpl.
  destruct o as [b|e]; [|discriminate].
  assert (exists l, collect rs = Returned l) as [l Hl].
  { clear -Hrs. induction rs as [|o rs IH]; [eexists; reflexivity|].
    inversion Hrs as [|? ? Ho Hrs']; subst. simpl.
    destruct o; [|discriminate]. destruct (IH Hrs') as [l ->].
    eexists; reflexivity. }
  rewrite Hl in IH |- *. simpl.
  inversion Hex as [? ? Hb|? ? Hr]; subst.
  - injection Hb as ->. reflexivity.
  - specialize (IH Hrs Hr). injection IH as Hall.
    unfold all in *. simpl. rewrite Hall. destruct b; reflexivity.
Qed.

(** [async_unload_entry] when a value is stored under [DOMAIN]. *)
Lemma async_unload_entry_registered (entry : ConfigEntry) (h : Hass) v :
  data h !! DOMAIN = Some v ->
  async_unload_entry entry h =
    let r := run_all (forward_entry_unload entry <$> ECOBEE_PLATFORMS)
               (with_data (fun m => delete DOMAIN m) h) in
    (all_of_gathered (fst r), snd r).
Proof.
  intros Hv. unfold async_unload_entry, gather, all_of_gathered. py_unfold.
  rewrite Hv. simpl.
  destruct (run_all _ _) as [rs s1]. simpl.
  destruct (collect rs); reflexivity.
Qed.

(** C7. With a coordinator registered, [async_unload_entry] returns
    true exactly when every platform answers true to its forward-unload
    call; when all of them answer and one answers false it returns
    false; and in every case one forward-unload call per declared
    platform has been made, in order, whatever the answers were. *)
Theorem unload_succeeds_iff_all_platforms_do
    (entry : ConfigEntry) (h : Hass) v :
  data h !! DOMAIN = Some v ->
  (fst (async_unload_entry entry h) = Returned true <->
   Forall (fun o => o = Returned true)
     (unload_answers entry ECOBEE_PLATFORMS (world h))) /\
  (Forall (fun o => returned o = true)
     (unload_answers entry ECOBEE_PLATFORMS (world h)) ->
   Exists (fun o => o = Returned false)
     (unload_answers entry ECOBEE_PLATFORMS (world h)) ->
   fst (async_unload_entry entry h) = Returned false) /\
  length (unload_answers entry ECOBEE_PLATFORMS (world h))
    = length ECOBEE_PLATFORMS /\
  calls (snd (async_unload_entry entry h))
    = calls h ++ (CallForwardEntryUnload entry <$> ECOBEE_PLATFORMS).
Proof.
  intros Hv. rewrite (async_unload_entry_registered entry h v Hv). simpl.
  destruct (run_all_forward_unload entry ECOBEE_PLATFORMS
              (with_data (fun m => delete DOMAIN m) h)) as (Hans & _ & Hcalls).
  simpl in Hans. rewrite Hans, Hcalls.
  split; [apply all_of_gathered_true|].
  split; [apply all_of_gathered_false|].
  split; [apply unload_answers_length|reflexivity].
Qed.

(** Unloading removes what is stored under [DOMAIN]. *)
Lemma unload_removes_coordinator (entry : ConfigEntry) (h : Hass) v :
  data h !! DOMAIN = Some v ->
  data (snd (async_unload_entry entry h)) !! DOMAIN = None.
Proof.
  intros Hv. rewrite (async_unload_entry_registered entry h v Hv). simpl.
  destruct (run_all_forward_unload entry ECOBEE_PLATFORMS
              (with_data (fun m => delete DOMAIN m) h)) as (_ & -> & _).
  simpl. apply lookup_delete_eq.
Qed.

(** C10. With nothing stored under [DOMAIN], [async_unload_entry]
    raises [KeyError] from [hass.data.pop(DOMAIN)]: it returns no
    result, calls no platform and leaves [hass] as it was. *)
Theorem unload_without_coordinator_raises (entry : ConfigEntry) (h : Hass) :
  data h !! DOMAIN = None ->
  async_unload_entry entry h = (Raised (KeyError DOMAIN), h).
Proof.
  intros Hv. unfold async_unload_entry. py_unfold. rewrite Hv. reflexivity.
Qed.

(** * Further properties of the module *)

(** ** [refresh] *)

(** [refresh] changes nothing of the coordinator but its client. *)
Lemma refresh_keeps_self (s : Self) :
  _entry (fst (snd (refresh s))) = _entry (fst s) /\
  _throttle (fst (snd (refresh s))) = _throttle (fst s).
Proof.
  pose proof (refresh_cases s) as Hc. simpl in Hc.
  destruct (Ecobee_refresh_tokens (ecobee (fst s)) (world (snd s)))
    as [[r eco] w].
  rewrite Hc. clear Hc.
  destruct r as [[|]|e];
    [destruct (config eco !! ECOBEE_API_KEY);
     [destruct (config eco !! ECOBEE_REFRESH_TOKEN)|]| |];
    split; reflexivity.
Qed.

(** What a [refresh] that returned true leaves: the entry of the
    coordinator holds the dict of the client's pair. *)
Lemma refresh_true_entry (s : Self) :
  fst (refresh s) = Returned true ->
  exists api_key refresh_token,
    config (ecobee (fst (snd (refresh s)))) !! ECOBEE_API_KEY = Some api_key /\
    config (ecobee (fst (snd (refresh s)))) !! ECOBEE_REFRESH_TOKEN
      = Some refresh_token /\
    data_of (_entry (fst s)) (snd (snd (refresh s)))
      = <[CONF_REFRESH_TOKEN := refresh_token]> (<[CONF_API_KEY := api_key]> ∅).
Proof.
  intros Hr. pose proof (refresh_cases s) as Hc. simpl in Hc.
  destruct (Ecobee_refresh_tokens (ecobee (fst s)) (world (snd s)))
    as [[r eco] w].
  rewrite Hc in Hr |- *. clear Hc.
  destruct r as [[|]|e]; try discriminate.
  destruct (config eco !! ECOBEE_API_KEY) as [a|] eqn:Ha; try discriminate.
  destruct (config eco !! ECOBEE_REFRESH_TOKEN) as [t|] eqn:Ht;
    try discriminate.
  exists a, t. simpl. unfold data_of. simpl.
  rewrite lookup_insert_eq. repeat split; assumption.
Qed.

(** X1. Whatever the client does, [refresh] leaves alone [hass.data],
    the registry of entries, the scheduled tasks, the [_entry] and
    throttle stamp of the coordinator, and the data of every entry
    other than the coordinator's own. *)
Theorem refresh_frame (s : Self) :
  _entry (fst (snd (refresh s))) = _entry (fst s) /\
  _throttle (fst (snd (refresh s))) = _throttle (fst s) /\
  data (snd (snd (refresh s))) = data (snd s) /\
  entries (snd (snd (refresh s))) = entries (snd s) /\
  tasks (snd (snd (refresh s))) = tasks (snd s) /\
  forall entry, entry <> _entry (fst s) ->
    data_of entry (snd (snd (refresh s))) = data_of entry (snd s).
Proof.
  destruct (refresh_keeps_self s) as [He Ht].
  destruct (refresh_keeps_data s) as [Hd Hk].
  split; [exact He|]. split; [exact Ht|]. split; [exact Hd|].
  split; [|split; [exact Hk|]].
  - pose proof (refresh_cases s) as Hc. simpl in Hc.
    destruct (Ecobee_refresh_tokens (ecobee (fst s)) (world (snd s)))
      as [[r eco] w].
    rewrite Hc. clear Hc.
    destruct r as [[|]|e];
      [destruct (config eco !! ECOBEE_API_KEY);
       [destruct (config eco !! ECOBEE_REFRESH_TOKEN)|]| |];
      reflexivity.
  - intros entry Hne. pose proof (refresh_cases s) as Hc. simpl in Hc.
    destruct (Ecobee_refresh_tokens (ecobee (fst s)) (world (snd s)))
      as [[r eco] w].
    rewrite Hc. clear Hc.
    destruct r as [[|]|e];
      [destruct (config eco !! ECOBEE_API_KEY);
       [destruct (config eco !! ECOBEE_REFRESH_TOKEN)|]| |];
      try reflexivity.
    unfold data_of. simpl. rewrite lookup_insert_ne by congruence.
    reflexivity.
Qed.

(** X2. One run of [refresh] calls the token refresh of the client
    exactly once and the data-fetch never; it asks the platform to
    rewrite an entry once when it returns true and not at all when it
    returns false or raises. *)
Theorem refresh_collaborator_calls (s : Self) :
  refresh_tokens_calls (snd (snd (refresh s)))
    = refresh_tokens_calls (snd s) + 1 /\
  fetch_calls (snd (snd (refresh s))) = fetch_calls (snd s) /\
  update_entry_calls (snd (snd (refresh s)))
    = update_entry_calls (snd s)
      + match fst (refresh s) with Returned true => 1 | _ => 0 end.
Proof.
  destruct (refresh_counts s) as (_ & Hn & Hf).
  split; [exact Hn|]. split; [exact Hf|].
  pose proof (refresh_cases s) as Hc. simpl in Hc.
  destruct (Ecobee_refresh_tokens (ecobee (fst s)) (world (snd s)))
    as [[r eco] w].
  rewrite Hc. clear Hc. unfold update_entry_calls.
  destruct r as [[|]|e];
    [destruct (config eco !! ECOBEE_API_KEY);
     [destruct (config eco !! ECOBEE_REFRESH_TOKEN)|]| |];
    simpl; rewrite ?count_snoc; simpl; lia.
Qed.

(** X3. The log of one run of [refresh]: the debug record on entry,
    followed by the error record exactly when it returns false;
    a run that returns true or raises logs no error. *)
Theorem refresh_log (s : Self) :
  records (snd (snd (refresh s)))
    = records (snd s) ++ refresh_records (fst (refresh s)).
Proof.
  pose proof (refresh_cases s) as Hc. simpl in Hc.
  destruct (Ecobee_refresh_tokens (ecobee (fst s)) (world (snd s)))
    as [[r eco] w].
  rewrite Hc. clear Hc. unfold refresh_records.
  destruct r as [[|]|e];
    [destruct (config eco !! ECOBEE_API_KEY);
     [destruct (config eco !! ECOBEE_REFRESH_TOKEN)|]| |];
    simpl; rewrite <- ?app_assoc; reflexivity.
Qed.

(** ** [update] *)

(** X4. A poll the throttle lets through and whose data-fetch returns:
    [update] returns [None], the coordinator holds the client as the
    fetch left it, one debug record is logged, and neither the token
    refresh nor the rewriting of an entry has been asked for: the
    stored credentials are what they were. *)
Theorem update_success_path (now : Z) (s : Self) u eco w :
  throttled MIN_TIME_BETWEEN_UPDATES now (fst s) = false ->
  Ecobee_update (ecobee (fst s)) (world (snd s)) = (Returned u, eco, w) ->
  fst (update now s) = Returned tt /\
  ecobee (fst (snd (update now s))) = eco /\
  _entry (fst (snd (update now s))) = _entry (fst s) /\
  entry_data (snd (snd (update now s))) = entry_data (snd s) /\
  refresh_tokens_calls (snd (snd (update now s)))
    = refresh_tokens_calls (snd s) /\
  update_entry_calls (snd (snd (update now s))) = update_entry_calls (snd s) /\
  records (snd (snd (update now s)))
    = records (snd s) ++ [(DEBUG, "Updating ecobee")].
Proof.
  intros Hopen Hx. rewrite (update_open now s Hopen).
  pose proof (update_wrapped_cases s) as Hc. rewrite Hx in Hc. simpl in Hc.
  rewrite Hc. clear Hc. simpl.
  unfold refresh_tokens_calls, update_entry_calls. simpl.
  rewrite !count_snoc. simpl. repeat split; lia.
Qed.

(** X5. A poll the throttle lets through calls the data-fetch of the
    client exactly once, however the fetch and the refresh that may
    follow it end: after a refresh the fetch is not tried again in the
    same call. *)
Theorem update_fetches_once_no_retry (now : Z) (s : Self) :
  throttled MIN_TIME_BETWEEN_UPDATES now (fst s) = false ->
  fetch_calls (snd (snd (update now s))) = fetch_calls (snd s) + 1.
Proof.
  intros Hopen. rewrite (update_open now s Hopen).
  pose proof (update_wrapped_fetches_once s) as Hn.
  destruct (update_wrapped s) as [[[]|e] s1]; exact Hn.
Qed.

(** X6. A poll whose data-fetch raises [ExpiredTokenError] and whose
    refresh then succeeds: [update] returns [None] and the entry of the
    coordinator holds the pair the client holds after the refresh. *)
Theorem update_expired_then_refreshed (now : Z) (s : Self) eco w :
  throttled MIN_TIME_BETWEEN_UPDATES now (fst s) = false ->
  Ecobee_update (ecobee (fst s)) (world (snd s))
    = (Raised ExpiredTokenError, eco, w) ->
  fst (refresh (after_expired_fetch s eco w)) = Returned true ->
  fst (update now s) = Returned tt /\
  exists api_key refresh_token,
    config (ecobee (fst (snd (update now s)))) !! ECOBEE_API_KEY
      = Some api_key /\
    config (ecobee (fst (snd (update now s)))) !! ECOBEE_REFRESH_TOKEN
      = Some refresh_token /\
    data_of (_entry (fst s)) (snd (snd (update now s)))
      = <[CONF_REFRESH_TOKEN := refresh_token]> (<[CONF_API_KEY := api_key]> ∅).
Proof.
  intros Hopen Hx Hr. rewrite (update_open now s Hopen).
  pose proof (update_wrapped_cases s) as Hc. rewrite Hx in Hc. simpl in Hc.
  rewrite Hc. clear Hc.
  destruct (refresh_true_entry (after_expired_fetch s eco w) Hr)
    as (a & t & Ha & Ht & Hd).
  rewrite Hr. simpl. split; [reflexivity|]. exists a, t.
  repeat split; assumption.
Qed.

(** X7. A poll whose data-fetch raises [ExpiredTokenError] and whose
    refresh then returns false: [update] still returns [None] (the
    failure is only logged), no entry is rewritten, and the log ends
    with the warning of [update], the debug record of [refresh] and its
    error record. *)
Theorem update_expired_then_refused (now : Z) (s : Self) eco w :
  throttled MIN_TIME_BETWEEN_UPDATES now (fst s) = false ->
  Ecobee_update (ecobee (fst s)) (world (snd s))
    = (Raised ExpiredTokenError, eco, w) ->
  fst (refresh (after_expired_fetch s eco w)) = Returned false ->
  fst (update now s) = Returned tt /\
  entry_data (snd (snd (update now s))) = entry_data (snd s) /\
  records (snd (snd (update now s)))
    = records (snd s) ++
      [(WARNING, "Ecobee update failed; attempting to refresh expired tokens");
       (DEBUG, "Refreshing ecobee tokens and updating config entry");
       (ERROR, "Error updating ecobee tokens")].
Proof.
  intros Hopen Hx Hr. rewrite (update_open now s Hopen).
  pose proof (update_wrapped_cases s) as Hc. rewrite Hx in Hc. simpl in Hc.
  rewrite Hc. clear Hc.
  assert (entry_data (snd (snd (refresh (after_expired_fetch s eco w))))
          = entry_data (snd s)) as He.
  { rewrite refresh_writes_entry_only_on_success; [reflexivity|].
    rewrite Hr. discriminate. }
  pose proof (refresh_cases (after_expired_fetch s eco w)) as Hc.
  simpl in Hc.
  destruct (Ecobee_refresh_tokens eco w) as [[r eco'] w'].
  rewrite Hc in Hr, He |- *. clear Hc.
  destruct r as [[|]|e];
    [destruct (config eco' !! ECOBEE_API_KEY);
     [destruct (config eco' !! ECOBEE_REFRESH_TOKEN)|]| |];
    try discriminate.
  simpl in *. split; [reflexivity|]. split; [exact He|].
  rewrite <- !app_assoc. reflexivity.
Qed.

(** ** [async_setup_entry] *)

(** [update] keeps the [_entry] of the coordinator. *)
Lemma update_keeps_entry (now : Z) (s : Self) :
  _entry (fst (snd (update now s))) = _entry (fst s).
Proof.
  destruct (throttled MIN_TIME_BETWEEN_UPDATES now (fst s)) eqn:Hth.
  - rewrite (update_throttled now s Hth). reflexivity.
  - rewrite (update_open now s Hth).
    pose proof (update_wrapped_cases s) as Hc.
    destruct (Ecobee_update (ecobee (fst s)) (world (snd s))) as [[r eco] w].
    simpl in Hc. rewrite Hc. clear Hc.
    destruct r as [[]|e]; [reflexivity|].
    destruct (is_ExpiredTokenError e); [|reflexivity].
    destruct (refresh_keeps_self (after_expired_fetch s eco w)) as [He _].
    destruct (refresh (after_expired_fetch s eco w)) as [[b|e'] s1];
      simpl in *; exact He.
Qed.

(** The coordinator [async_setup_entry] builds has never been polled,
    and is still so after its [refresh]. *)
Lemma setup_update_is_let_through (now : Z) (entry : ConfigEntry) (h : Hass) a t :
  throttled MIN_TIME_BETWEEN_UPDATES now
    (fst (snd (refresh (EcobeeData__init__ entry a t, h)))) = false.
Proof.
  unfold throttled.
  destruct (refresh_keeps_self (EcobeeData__init__ entry a t, h)) as [_ ->].
  reflexivity.
Qed.

(** [async_setup_entry] on an entry that lacks a key. *)
Lemma setup_missing_key_raises_aux (now : Z) (entry : ConfigEntry) (h : Hass) :
  data_of entry h !! CONF_API_KEY = None \/
  data_of entry h !! CONF_REFRESH_TOKEN = None ->
  async_setup_entry now entry h
  = (Raised (KeyError (match data_of entry h !! CONF_API_KEY with
                       | None => CONF_API_KEY
                       | Some _ => CONF_REFRESH_TOKEN
                       end)), h).
Proof.
  intros Hmiss. unfold async_setup_entry. py_unfold.
  destruct (data_of entry h !! CONF_API_KEY) as [a|]; simpl; [|reflexivity].
  destruct Hmiss as [Hm|Hm]; [discriminate|]. rewrite Hm. reflexivity.
Qed.

(** X8. An entry whose data lacks one of the two credential keys:
    [async_setup_entry] raises [KeyError] on the first key it misses,
    before the client is built or called, and changes nothing. *)
Theorem setup_missing_key_raises (now : Z) (entry : ConfigEntry) (h : Hass) :
  data_of entry h !! CONF_API_KEY = None \/
  data_of entry h !! CONF_REFRESH_TOKEN = None ->
  async_setup_entry now entry h
  = (Raised (KeyError (match data_of entry h !! CONF_API_KEY with
                       | None => CONF_API_KEY
                       | Some _ => CONF_REFRESH_TOKEN
                       end)), h).
Proof. exact (setup_missing_key_raises_aux now entry h). Qed.

(** X9. Unless [async_setup_entry] returns true, it has stored nothing
    in [hass.data] and scheduled nothing, whether it returned false or
    raised. *)
Theorem setup_registers_only_on_success
    (now : Z) (entry : ConfigEntry) (h : Hass) :
  fst (async_setup_entry now entry h) <> Returned true ->
  data (snd (async_setup_entry now entry h)) = data h /\
  tasks (snd (async_setup_entry now entry h)) = tasks h.
Proof.
  destruct (data_of entry h !! CONF_API_KEY) as [a|] eqn:Ha;
    [destruct (data_of entry h !! CONF_REFRESH_TOKEN) as [t|] eqn:Ht|].
  - rewrite (async_setup_entry_cases now entry h a t Ha Ht).
    destruct (refresh_keeps_data (EcobeeData__init__ entry a t, h)) as [Hd Hk].
    destruct (refresh _) as [[[|]|e] s1]; simpl in *;
      try (intros _; split; assumption).
    destruct (update_keeps_data now s1) as [Hd' Hk'].
    destruct (update now s1) as [[[]|e] s2]; simpl in *;
      [|intros _; split; congruence].
    destruct (thermostats (ecobee (fst s2))); simpl;
      [congruence|intros _; split; congruence].
  - intros _. rewrite setup_missing_key_raises_aux by (right; exact Ht).
    split; reflexivity.
  - intros _. rewrite setup_missing_key_raises_aux by (left; exact Ha).
    split; reflexivity.
Qed.

(** The state a successful [async_setup_entry] leaves. *)
Lemma setup_success_state (now : Z) (entry : ConfigEntry) (h : Hass) :
  fst (async_setup_entry now entry h) = Returned true ->
  (exists d,
     data (snd (async_setup_entry now entry h))
       = <[DOMAIN := Coordinator d]> (data h) /\
     _entry d = entry /\
     is_Some (thermostats (ecobee d))) /\
  tasks (snd (async_setup_entry now entry h))
    = tasks h ++ (ForwardEntrySetup entry <$> ECOBEE_PLATFORMS).
Proof.
  destruct (data_of entry h !! CONF_API_KEY) as [a|] eqn:Ha;
    [destruct (data_of entry h !! CONF_REFRESH_TOKEN) as [t|] eqn:Ht|].
  - rewrite (async_setup_entry_cases now entry h a t Ha Ht).
    destruct (refresh_keeps_data (EcobeeData__init__ entry a t, h)) as [Hd Hk].
    destruct (refresh_keeps_self (EcobeeData__init__ entry a t, h)) as [He _].
    destruct (refresh _) as [[[|]|e] s1]; simpl in *; try discriminate.
    destruct (update_keeps_data now s1) as [Hd' Hk'].
    pose proof (update_keeps_entry now s1) as He'.
    destruct (update now s1) as [[[]|e] s2]; simpl in *; try discriminate.
    destruct (thermostats (ecobee (fst s2))) as [found|] eqn:Hth; simpl;
      try discriminate.
    intros _. split.
    + exists (fst s2). rewrite Hth. repeat split; [congruence|congruence|].
      eexists; reflexivity.
    + congruence.
  - rewrite setup_missing_key_raises_aux by (right; exact Ht). discriminate.
  - rewrite setup_missing_key_raises_aux by (left; exact Ha). discriminate.
Qed.

(** X10. Whenever [async_setup_entry] returns true, a coordinator of
    that very entry whose client holds a device list is stored under
    [DOMAIN] (replacing whatever was there, the other keys of
    [hass.data] untouched), and one forward-setup task per declared
    platform has been scheduled, in order, after the tasks that were
    already there. *)
Theorem setup_success_registers (now : Z) (entry : ConfigEntry) (h : Hass) :
  fst (async_setup_entry now entry h) = Returned true ->
  (exists d,
     data (snd (async_setup_entry now entry h))
       = <[DOMAIN := Coordinator d]> (data h) /\
     _entry d = entry /\
     is_Some (thermostats (ecobee d))) /\
  tasks (snd (async_setup_entry now entry h))
    = tasks h ++ (ForwardEntrySetup entry <$> ECOBEE_PLATFORMS).
Proof. exact (setup_success_state now entry h). Qed.

(** X11. [async_setup_entry] polls the client once exactly when its
    [refresh] returned true: the coordinator is new, so the throttle
    lets that poll through; when the [refresh] returned false or
    raised, the data-fetch is not called at all. *)
Theorem setup_polls_once_after_refresh
    (now : Z) (entry : ConfigEntry) (h : Hass) a t :
  data_of entry h !! CONF_API_KEY = Some a ->
  data_of entry h !! CONF_REFRESH_TOKEN = Some t ->
  fetch_calls (snd (async_setup_entry now entry h))
    = fetch_calls h
      + match fst (refresh (EcobeeData__init__ entry a t, h)) with
        | Returned true => 1
        | _ => 0
        end.
Proof.
  intros Ha Ht. rewrite (async_setup_entry_cases now entry h a t Ha Ht).
  destruct (refresh_counts (EcobeeData__init__ entry a t, h)) as (_ & _ & Hf).
  pose proof (setup_update_is_let_through now entry h a t) as Hopen.
  destruct (refresh _) as [[[|]|e] s1]; simpl in *; try lia.
  pose proof (update_wrapped_fetches_once s1) as Hn.
  rewrite (update_open now s1 Hopen).
  destruct (update_wrapped s1) as [[[]|e] s2]; simpl in *; [|lia].
  destruct (thermostats (ecobee (fst s2))); unfold fetch_calls in *; simpl;
    lia.
Qed.

(** X12. When the first poll of [async_setup_entry] fails with anything
    but [ExpiredTokenError], the setup raises that exception to the
    platform (it neither returns false nor registers the coordinator). *)
Theorem setup_poll_error_propagates
    (now : Z) (entry : ConfigEntry) (h : Hass) a t (s1 : Self) e eco w :
  data_of entry h !! CONF_API_KEY = Some a ->
  data_of entry h !! CONF_REFRESH_TOKEN = Some t ->
  refresh (EcobeeData__init__ entry a t, h) = (Returned true, s1) ->
  Ecobee_update (ecobee (fst s1)) (world (snd s1)) = (Raised e, eco, w) ->
  e <> ExpiredTokenError ->
  fst (async_setup_entry now entry h) = Raised e /\
  data (snd (async_setup_entry now entry h)) = data h.
Proof.
  intros Ha Ht Hr Hx Hne.
  rewrite (async_setup_entry_cases now entry h a t Ha Ht).
  destruct (refresh_keeps_data (EcobeeData__init__ entry a t, h)) as [Hd _].
  pose proof (setup_update_is_let_through now entry h a t) as Hopen.
  rewrite Hr in Hd, Hopen |- *. simpl in Hd, Hopen.
  rewrite (update_open now s1 Hopen).
  pose proof (update_wrapped_cases s1) as Hc. rewrite Hx in Hc. simpl in Hc.
  rewrite Hc. clear Hc.
  assert (is_ExpiredTokenError e = false) as ->
    by (destruct e; try reflexivity; congruence).
  simpl. split; [reflexivity|exact Hd].
Qed.

(** ** [async_setup] *)

(** No entry of the domain: the filter of [async_entries] is empty. *)
Lemma no_entry_of_domain (domain : string) (l : list (string * ConfigEntry)) :
  List.filter (fun p => bool_decide (fst p = domain)) l = [] <->
  forall entry, (domain, entry) ∉ l.
Proof.
  split.
  - intros Hf entry Hin. apply list_elem_of_In in Hin.
    assert (In (domain, entry)
              (List.filter (fun p => bool_decide (fst p = domain)) l)) as Hin'.
    { apply List.filter_In. split; [exact Hin|].
      apply bool_decide_eq_true. reflexivity. }
    rewrite Hf in Hin'. destruct Hin'.
  - intros Hno.
    destruct (List.filter _ l) as [|[dom entry] l'] eqn:Hf; [reflexivity|].
    exfalso.
    assert (In (dom, entry)
              (List.filter (fun p => bool_decide (fst p = domain)) l)) as Hin
      by (rewrite Hf; left; reflexivity).
    apply List.filter_In in Hin. destruct Hin as [Hin Hd].
    apply bool_decide_eq_true in Hd. simpl in Hd. subst dom.
    apply (Hno entry). apply list_elem_of_In. exact Hin.
Qed.

(** X13. [async_setup] never raises and always returns true; it stores
    under [DATA_ECOBEE_CONFIG] the block of the configuration, or the
    empty dict when the configuration has none, leaving the other keys
    of [hass.data], the entries and their data as they were, and it
    logs nothing. *)
Theorem async_setup_stores_block
    (cfg : gmap string (gmap string string)) (h : Hass) :
  fst (async_setup cfg h) = Returned true /\
  data (snd (async_setup cfg h))
    = <[DATA_ECOBEE_CONFIG := ConfigBlock (default ∅ (cfg !! DOMAIN))]> (data h) /\
  entries (snd (async_setup cfg h)) = entries h /\
  entry_data (snd (async_setup cfg h)) = entry_data h /\
  records (snd (async_setup cfg h)) = records h.
Proof.
  rewrite async_setup_cases. simpl.
  destruct (List.filter _ (entries h)); [|repeat split].
  destruct (dict_truthy _); repeat split.
Qed.

(** X14. [async_setup] schedules the import flow exactly when no entry
    of the domain is registered (entries of other domains do not
    count) and the configuration holds a block for the domain that is
    not empty; it schedules that one task or none. *)
Theorem async_setup_import_condition
    (cfg : gmap string (gmap string string)) (h : Hass) :
  (tasks (snd (async_setup cfg h))
     = tasks h ++ [FlowInit DOMAIN SOURCE_IMPORT] <->
   (forall entry, (DOMAIN, entry) ∉ entries h) /\
   exists block, cfg !! DOMAIN = Some block /\ block <> ∅) /\
  (tasks (snd (async_setup cfg h)) = tasks h \/
   tasks (snd (async_setup cfg h))
     = tasks h ++ [FlowInit DOMAIN SOURCE_IMPORT]).
Proof.
  assert (forall (l : list Task) x, l <> l ++ [x]) as Hsnoc.
  { intros l x Hl. apply (f_equal length) in Hl.
    rewrite length_app in Hl. simpl in Hl. lia. }
  rewrite async_setup_cases. simpl.
  pose proof (no_entry_of_domain DOMAIN (entries h)) as Hno.
  destruct (List.filter _ (entries h)) as [|p l]; simpl.
  - destruct (cfg !! DOMAIN) as [block|] eqn:Hb; simpl.
    + unfold dict_truthy. destruct (decide (block = ∅)) as [He|He];
        [rewrite (bool_decide_eq_true_2 _ He)
        |rewrite (bool_decide_eq_false_2 _ He)]; simpl.
      * split; [|left; reflexivity]. split.
        -- intros Hl. destruct (Hsnoc _ _ Hl).
        -- intros (_ & block' & Hb' & Hne). congruence.
      * split; [|right; reflexivity]. split; [|reflexivity].
        intros _. split; [apply Hno; reflexivity|].
        exists block. split; [reflexivity|exact He].
    + unfold dict_truthy. rewrite bool_decide_eq_true_2 by reflexivity. simpl.
      split; [|left; reflexivity]. split.
      * intros Hl. destruct (Hsnoc _ _ Hl).
      * intros (_ & block' & Hb' & _). discriminate.
  - split; [|left; reflexivity]. split.
    + intros Hl. destruct (Hsnoc _ _ Hl).
    + intros (Hnone & _). apply Hno in Hnone. discriminate.
Qed.

(** ** [async_unload_entry] *)

(** When an awaitable raised, gathering raises, and what it raises is
    an exception one of them raised. *)
Lemma collect_raised {A} (rs : list (outcome A)) :
  Exists (fun o => returned o = false) rs ->
  exists e, collect rs = Raised e /\ In (Raised e) rs.
Proof.
  induction rs as [|o rs IH]; intros Hex; [inversion Hex|].
  destruct o as [a|e]; simpl.
  - inversion Hex as [? ? Ho|? ? Hrs]; subst; [discriminate|].
    destruct (IH Hrs) as (e & -> & Hin). exists e. split; [reflexivity|].
    right. exact Hin.
  - exists e. split; [reflexivity|]. left. reflexivity.
Qed.

(** X15. With a value stored under [DOMAIN], [async_unload_entry]
    removes it before it asks the platforms: afterwards [hass.data] is
    the old one without [DOMAIN], whether the unload returned true,
    returned false or raised. *)
Theorem unload_drops_coordinator_first (entry : ConfigEntry) (h : Hass) v :
  data h !! DOMAIN = Some v ->
  data (snd (async_unload_entry entry h)) = delete DOMAIN (data h).
Proof.
  intros Hv. rewrite (async_unload_entry_registered entry h v Hv). simpl.
  destruct (run_all_forward_unload entry ECOBEE_PLATFORMS
              (with_data (fun m => delete DOMAIN m) h)) as (_ & -> & _).
  reflexivity.
Qed.

(** X16. Two unloads in a row, of the same entry or of two entries of
    the domain: whatever the first one did, the second raises
    [KeyError], for the single slot under [DOMAIN] is empty by then. *)
Theorem unload_twice_raises (first second : ConfigEntry) (h : Hass) :
  fst (async_unload_entry second (snd (async_unload_entry first h)))
  = Raised (KeyError DOMAIN).
Proof.
  assert (data (snd (async_unload_entry first h)) !! DOMAIN = None) as Hgone.
  { destruct (data h !! DOMAIN) as [v|] eqn:Hv.
    - apply (unload_removes_coordinator first h v Hv).
    - unfold async_unload_entry at 1. py_unfold. rewrite Hv. simpl. exact Hv. }
  unfold async_unload_entry at 1. py_unfold. rewrite Hgone. reflexivity.
Qed.

(** X17. With a coordinator registered, when a forward-unload call
    raises, [async_unload_entry] returns no result: it raises an
    exception that one of the platforms raised; every platform has been
    asked all the same. *)
Theorem unload_raises_when_platform_raises
    (entry : ConfigEntry) (h : Hass) v :
  data h !! DOMAIN = Some v ->
  Exists (fun o => returned o = false)
    (unload_answers entry ECOBEE_PLATFORMS (world h)) ->
  (exists e,
     fst (async_unload_entry entry h) = Raised e /\
     In (Raised e) (unload_answers entry ECOBEE_PLATFORMS (world h))) /\
  calls (snd (async_unload_entry entry h))
    = calls h ++ (CallForwardEntryUnload entry <$> ECOBEE_PLATFORMS).
Proof.
  intros Hv Hex. rewrite (async_unload_entry_registered entry h v Hv). simpl.
  destruct (run_all_forward_unload entry ECOBEE_PLATFORMS
              (with_data (fun m => delete DOMAIN m) h)) as (Hans & _ & Hcalls).
  simpl in Hans. rewrite Hans, Hcalls. split; [|reflexivity].
  destruct (collect_raised _ Hex) as (e & Hc & Hin).
  exists e. unfold all_of_gathered. rewrite Hc. split; [reflexivity|exact Hin].
Qed.

(** X18. Setup then unload: when nothing was stored under [DOMAIN] and
    [async_setup_entry] returned true, a following
    [async_unload_entry] finds the coordinator (its result is the one
    of the platforms, not the [KeyError] of the pop) and [hass.data] is
    back to what it was before the setup. *)
Theorem setup_then_unload_restores_data
    (now : Z) (entry : ConfigEntry) (h : Hass) :
  data h !! DOMAIN = None ->
  fst (async_setup_entry now entry h) = Returned true ->
  data (snd (async_unload_entry entry (snd (async_setup_entry now entry h))))
    = data h /\
  fst (async_unload_entry entry (snd (async_setup_entry now entry h)))
    = all_of_gathered
        (unload_answers entry ECOBEE_PLATFORMS
           (world (snd (async_setup_entry now entry h)))).
Proof.
  intros Hfree Hok.
  destruct (setup_success_state now entry h Hok) as ((d & Hd & _ & _) & _).
  assert (data (snd (async_setup_entry now entry h)) !! DOMAIN
          = Some (Coordinator d)) as Hv
    by (rewrite Hd; apply lookup_insert_eq).
  rewrite (async_unload_entry_registered entry _ _ Hv). simpl.
  destruct (run_all_forward_unload entry ECOBEE_PLATFORMS
              (with_data (fun m => delete DOMAIN m)
                 (snd (async_setup_entry now entry h))))
    as (Hans & Hdata & _).
  simpl in Hans, Hdata. rewrite Hans, Hdata, Hd. split; [|reflexivity].
  apply delete_insert_id. exact Hfree.
Qed.

End Properties.

(** * The properties on concrete runs *)

Section Runs.
Import Scenario.

Local Open Scope py_scope.

(** Spec scenario: the entry holds K1, R1; the refresh hands out K2,
    R2; afterwards the entry holds K2, R2, as the client does. *)
Lemma refresh_success_syncs_entry_witness :
  refresh (data0, hass0 refreshed)
    = (Returned true, snd (refresh (data0, hass0 refreshed))) /\
  data_of 0 (snd (snd (refresh (data0, hass0 refreshed)))) !! "api_key"
    = Some "K2" /\
  data_of 0 (snd (snd (refresh (data0, hass0 refreshed)))) !! "refresh_token"
    = Some "R2".
Proof.
  assert (refresh (data0, hass0 refreshed)
          = (Returned true, snd (refresh (data0, hass0 refreshed)))) as Hr
    by (vm_compute; reflexivity).
  assert (CONF_API_KEY <> CONF_REFRESH_TOKEN) as Hne by discriminate.
  split; [exact Hr|].
  destruct (refresh_success_syncs_entry (data0, hass0 refreshed) _ Hne Hr)
    as (_ & Ha & Ht & _).
  split.
  - etransitivity; [exact Ha|]. vm_compute. reflexivity.
  - etransitivity; [exact Ht|]. vm_compute. reflexivity.
Defined.

(** Two polls 179 seconds apart on a fresh coordinator: one fetch,
    when the first poll returns and when it cannot connect. *)
Lemma update_twice_fetches_once_witness :
  (179000000 - 0 < timedelta_seconds 180)%Z /\
  fetch_calls
    (snd (snd (update 179000000
                 (snd (update 0 (data0, hass0 (polled (Some ["living room"]))))))))
    = 1 /\
  fst (update 0 (data0, hass0 (failing_fetch (OtherError "ConnectionError"))))
    = Raised (OtherError "ConnectionError") /\
  update 179000000
    (snd (update 0 (data0, hass0 (failing_fetch (OtherError "ConnectionError")))))
  = (Returned tt,
     snd (update 0 (data0, hass0 (failing_fetch (OtherError "ConnectionError"))))) /\
  fetch_calls
    (snd (snd (update 179000000
                 (snd (update 0
                    (data0, hass0 (failing_fetch (OtherError "ConnectionError"))))))))
    = 1.
Proof.
  assert (179000000 - 0 < timedelta_seconds 180)%Z as Hlt
    by (vm_compute; reflexivity).
  destruct (update_twice_fetches_once 0 179000000
              (data0, hass0 (polled (Some ["living room"]))) eq_refl Hlt)
    as (_ & Hn & _).
  destruct (update_twice_fetches_once 0 179000000
              (data0, hass0 (failing_fetch (OtherError "ConnectionError")))
              eq_refl Hlt)
    as (Hnoop & Hn' & _).
  split; [exact Hlt|]. split; [|split; [|split]].
  - etransitivity; [exact Hn|]. vm_compute. reflexivity.
  - vm_compute. reflexivity.
  - exact Hnoop.
  - etransitivity; [exact Hn'|]. vm_compute. reflexivity.
Defined.

(** A fetch that raises [ExpiredTokenError] is answered by one
    [refresh] and [update] returns; a fetch that cannot connect raises
    to the caller. *)
Lemma update_catches_expired_token_only_witness :
  (fst (update 0 (data0, hass0 (failing_fetch ExpiredTokenError))) = Returned tt /\
   refresh_runs
     (snd (snd (update 0 (data0, hass0 (failing_fetch ExpiredTokenError))))) = 1) /\
  fst (update 0 (data0, hass0 (failing_fetch (OtherError "ConnectionError"))))
    = Raised (OtherError "ConnectionError").
Proof.
  split.
  - edestruct (update_catches_expired_token_only 0
                 (data0, hass0 (failing_fetch ExpiredTokenError))
                 ExpiredTokenError) as [Hexpired _];
      [reflexivity|vm_compute; reflexivity|].
    destruct (Hexpired eq_refl) as (_ & Hret & Hruns & _).
    split.
    + apply Hret. vm_compute. reflexivity.
    + etransitivity; [exact Hruns|]. vm_compute. reflexivity.
  - edestruct (update_catches_expired_token_only 0
                 (data0, hass0 (failing_fetch (OtherError "ConnectionError")))
                 (OtherError "ConnectionError")) as [_ Hother];
      [reflexivity|vm_compute; reflexivity|].
    apply Hother. discriminate.
Defined.

(** The vendor refuses the refresh token during setup. *)
Lemma setup_fails_when_refresh_fails_witness :
  fst (refresh (EcobeeData__init__ 0 "K1" "R1", hass0 refused)) = Returned false /\
  fst (async_setup_entry 0 0 (hass0 refused)) = Returned false /\
  data (snd (async_setup_entry 0 0 (hass0 refused))) = ∅ /\
  tasks (snd (async_setup_entry 0 0 (hass0 refused))) = [].
Proof.
  assert (fst (refresh (EcobeeData__init__ 0 "K1" "R1", hass0 refused))
          = Returned false) as Hr by (vm_compute; reflexivity).
  split; [exact Hr|].
  apply (setup_fails_when_refresh_fails 0 0 (hass0 refused) "K1" "R1");
    [vm_compute; reflexivity|vm_compute; reflexivity|exact Hr].
Defined.

(** Setup with a fetch that leaves [thermostats] at [None], and with a
    fetch that finds one thermostat. *)
Lemma setup_fails_iff_thermostats_is_None_witness :
  fst (async_setup_entry 0 0 (hass0 (polled None))) = Returned false /\
  fst (async_setup_entry 0 0 (hass0 (polled (Some ["living room"]))))
    = Returned true.
Proof.
  split.
  - edestruct (setup_fails_iff_thermostats_is_None 0 0 (hass0 (polled None))
                 "K1" "R1") as [Hnone _];
      [vm_compute; reflexivity|vm_compute; reflexivity
      |vm_compute; reflexivity|vm_compute; reflexivity|].
    apply Hnone. reflexivity.
  - edestruct (setup_fails_iff_thermostats_is_None 0 0
                 (hass0 (polled (Some ["living room"]))) "K1" "R1")
      as [_ Hsome];
      [vm_compute; reflexivity|vm_compute; reflexivity
      |vm_compute; reflexivity|vm_compute; reflexivity|].
    apply (Hsome ["living room"]). reflexivity.
Defined.

(** C5, the claim at a concrete input: the refresh succeeds, the
    update runs and finds an empty list of thermostats, and the setup
    returns true and registers the coordinator. *)
Lemma setup_succeeds_with_empty_collection :
  fst (refresh (data0, hass0 (polled (Some [])))) = Returned true /\
  fst (update 0 (snd (refresh (data0, hass0 (polled (Some []))))))
    = Returned tt /\
  thermostats
    (ecobee (fst (snd (update 0 (snd (refresh (data0, hass0 (polled (Some []))))))))) 
    = Some [] /\
  fst (async_setup_entry 0 0 (hass0 (polled (Some [])))) = Returned true /\
  is_Some (data (snd (async_setup_entry 0 0 (hass0 (polled (Some []))))) !! "ecobee").
Proof.
  repeat split; try (vm_compute; reflexivity).
  vm_compute. eexists. reflexivity.
Qed.

(** The configuration holds [ecobee: {}] and there is no entry: no
    import flow is scheduled; with [ecobee: {api_key: ...}] it is. *)
Lemma async_setup_empty_block_example :
  tasks (snd (async_setup {[ "ecobee" := ∅ ]}
                (mkHass ∅ [] ∅ [] [] [] (mkScript [] [] [])))) = [] /\
  tasks (snd (async_setup {[ "ecobee" := {[ "api_key" := "K1" ]} ]}
                (mkHass ∅ [] ∅ [] [] [] (mkScript [] [] []))))
    = [FlowInit "ecobee" "import"].
Proof. split; vm_compute; reflexivity. Qed.

(** The climate platform answers false: unload returns false and all
    four platforms have been asked. *)
Lemma unload_succeeds_iff_all_platforms_do_witness :
  fst (async_unload_entry 0 (hass_loaded climate_stuck)) = Returned false /\
  calls (snd (async_unload_entry 0 (hass_loaded climate_stuck)))
    = [CallForwardEntryUnload 0 "binary_sensor";
       CallForwardEntryUnload 0 "climate";
       CallForwardEntryUnload 0 "sensor";
       CallForwardEntryUnload 0 "weather"].
Proof.
  edestruct (unload_succeeds_iff_all_platforms_do 0 (hass_loaded climate_stuck))
    as (_ & Hfalse & _ & Hcalls); [vm_compute; reflexivity|].
  split.
  - apply Hfalse.
    + vm_compute. repeat constructor.
    + vm_compute. right. left. reflexivity.
  - etransitivity; [exact Hcalls|]. vm_compute. reflexivity.
Defined.

(** [refresh] when the client returns false, and when it raises. *)
Lemma refresh_ends_as_client_does_witness :
  fst (refresh (data0, hass0 refused)) = Returned false /\
  fst (refresh (data0, hass0 broken)) = Raised (OtherError "JSONDecodeError").
Proof.
  split.
  - edestruct (refresh_ends_as_client_does (data0, hass0 refused)
                 (Returned false)) as (Hfalse & _ & _);
      [vm_compute; reflexivity|].
    apply Hfalse. reflexivity.
  - edestruct (refresh_ends_as_client_does (data0, hass0 broken)
                 (Raised (OtherError "JSONDecodeError"))) as (_ & _ & Hraise);
      [vm_compute; reflexivity|].
    apply Hraise. reflexivity.
Defined.

(** C8, the claim at concrete inputs: [refresh] raises when the token
    refresh of the client raises, and when the client returns true with
    a config that lacks the credential keys. *)
Lemma refresh_can_raise :
  fst (refresh (data0, hass0 broken)) = Raised (OtherError "JSONDecodeError") /\
  fst (refresh (data0, hass0 keyless)) = Raised (KeyError "API_KEY").
Proof. split; vm_compute; reflexivity. Qed.

(** The vendor refuses the refresh token: the entry keeps K1, R1. *)
Lemma refresh_failure_keeps_entry_witness :
  fst (refresh (data0, hass0 refused)) = Returned false /\
  data_of 0 (snd (snd (refresh (data0, hass0 refused)))) = stored "K1" "R1".
Proof.
  assert (fst (refresh (data0, hass0 refused)) = Returned false) as Hr
    by (vm_compute; reflexivity).
  split; [exact Hr|].
  destruct (refresh_failure_keeps_entry (data0, hass0 refused) Hr) as [_ He].
  etransitivity; [apply He|]. vm_compute. reflexivity.
Defined.

(** Unloading in a process where setup never registered a coordinator. *)
Lemma unload_without_coordinator_raises_witness :
  async_unload_entry 0 (hass0 climate_stuck)
    = (Raised (KeyError "ecobee"), hass0 climate_stuck).
Proof.
  assert (data (hass0 climate_stuck) !! DOMAIN = None) as Hv
    by (vm_compute; reflexivity).
  exact (unload_without_coordinator_raises 0 (hass0 climate_stuck) Hv).
Defined.

(** ** Runs for the further properties *)

(** A poll that finds a thermostat. *)
Lemma update_success_path_witness :
  fst (update 0 (data0, hass0 (polled (Some ["living room"])))) = Returned tt /\
  refresh_tokens_calls
    (snd (snd (update 0 (data0, hass0 (polled (Some ["living room"])))))) = 0 /\
  data_of 0 (snd (snd (update 0 (data0, hass0 (polled (Some ["living room"]))))))
    = stored "K1" "R1".
Proof.
  edestruct (update_success_path 0
               (data0, hass0 (polled (Some ["living room"]))))
    as (Hret & _ & _ & Hdata & Hcalls & _);
    [reflexivity|vm_compute; reflexivity|].
  split; [exact Hret|]. split.
  - etransitivity; [exact Hcalls|]. reflexivity.
  - unfold data_of. rewrite Hdata. vm_compute. reflexivity.
Defined.

(** A poll that ends in a token refresh: still one fetch. *)
Lemma update_fetches_once_no_retry_witness :
  fetch_calls
    (snd (snd (update 0 (data0, hass0 (failing_fetch ExpiredTokenError))))) = 1.
Proof.
  etransitivity;
    [apply (update_fetches_once_no_retry 0
              (data0, hass0 (failing_fetch ExpiredTokenError))); reflexivity|].
  reflexivity.
Defined.

(** The fetch finds the token expired and the vendor hands out K2, R2. *)
Lemma update_expired_then_refreshed_witness :
  fst (update 0 (data0, hass0 (failing_fetch ExpiredTokenError))) = Returned tt.
Proof.
  edestruct (update_expired_then_refreshed 0
               (data0, hass0 (failing_fetch ExpiredTokenError)))
    as (Hret & _);
    [reflexivity|vm_compute; reflexivity|vm_compute; reflexivity|].
  exact Hret.
Defined.

(** The fetch finds the token expired and the vendor refuses the
    refresh: the poll returns and the entry keeps K1, R1. *)
Lemma update_expired_then_refused_witness :
  fst (update 0 (data0, hass0 expired_and_refused)) = Returned tt /\
  entry_data (snd (snd (update 0 (data0, hass0 expired_and_refused))))
    = {[ 0 := stored "K1" "R1" ]}.
Proof.
  edestruct (update_expired_then_refused 0 (data0, hass0 expired_and_refused))
    as (Hret & Hdata & _);
    [reflexivity|vm_compute; reflexivity|vm_compute; reflexivity|].
  split; [exact Hret|exact Hdata].
Defined.

(** Setting up an entry that holds no credentials. *)
Lemma setup_missing_key_raises_witness :
  fst (async_setup_entry 0 0 (hass_blank refreshed))
    = Raised (KeyError "api_key") /\
  snd (async_setup_entry 0 0 (hass_blank refreshed)) = hass_blank refreshed.
Proof.
  assert (data_of 0 (hass_blank refreshed) !! CONF_API_KEY = None \/
          data_of 0 (hass_blank refreshed) !! CONF_REFRESH_TOKEN = None) as Hm
    by (left; vm_compute; reflexivity).
  rewrite (setup_missing_key_raises 0 0 (hass_blank refreshed) Hm).
  split; reflexivity.
Defined.

(** The vendor refuses the refresh token during setup. *)
Lemma setup_registers_only_on_success_witness :
  data (snd (async_setup_entry 0 0 (hass0 refused))) = ∅ /\
  tasks (snd (async_setup_entry 0 0 (hass0 refused))) = [].
Proof.
  apply (setup_registers_only_on_success 0 0 (hass0 refused)).
  vm_compute. discriminate.
Defined.

(** A setup that finds a thermostat forwards the four platforms. *)
Lemma setup_success_registers_witness :
  tasks (snd (async_setup_entry 0 0 (hass0 (polled (Some ["living room"])))))
  = [ForwardEntrySetup 0 "binary_sensor"; ForwardEntrySetup 0 "climate";
     ForwardEntrySetup 0 "sensor"; ForwardEntrySetup 0 "weather"].
Proof.
  edestruct (setup_success_registers 0 0
               (hass0 (polled (Some ["living room"])))) as (_ & Htasks);
    [vm_compute; reflexivity|].
  exact Htasks.
Defined.

(** A setup whose refresh succeeds polls once; one whose refresh is
    refused does not poll. *)
Lemma setup_polls_once_after_refresh_witness :
  fetch_calls (snd (async_setup_entry 0 0 (hass0 (polled (Some ["living room"])))))
    = 1 /\
  fetch_calls (snd (async_setup_entry 0 0 (hass0 refused))) = 0.
Proof.
  split.
  - etransitivity;
      [apply (setup_polls_once_after_refresh 0 0
                (hass0 (polled (Some ["living room"]))) "K1" "R1");
       vm_compute; reflexivity|].
    vm_compute. reflexivity.
  - etransitivity;
      [apply (setup_polls_once_after_refresh 0 0 (hass0 refused) "K1" "R1");
       vm_compute; reflexivity|].
    vm_compute. reflexivity.
Defined.

(** The first poll of a setup cannot connect. *)
Lemma setup_poll_error_propagates_witness :
  fst (async_setup_entry 0 0
         (hass0 (failing_fetch (OtherError "ConnectionError"))))
    = Raised (OtherError "ConnectionError").
Proof.
  edestruct (setup_poll_error_propagates 0 0
               (hass0 (failing_fetch (OtherError "ConnectionError")))
               "K1" "R1"
               (snd (refresh
                  (data0, hass0 (failing_fetch (OtherError "ConnectionError")))))
               (OtherError "ConnectionError"))
    as (Hraise & _);
    [vm_compute; reflexivity|vm_compute; reflexivity|vm_compute; reflexivity
    |vm_compute; reflexivity|discriminate|].
  exact Hraise.
Defined.

(** The sensor platform raises during unload: the coordinator is gone. *)
Lemma unload_drops_coordinator_first_witness :
  data (snd (async_unload_entry 0 (hass_loaded sensor_crashes))) = ∅.
Proof.
  etransitivity;
    [apply (unload_drops_coordinator_first 0 (hass_loaded sensor_crashes)
              (Coordinator data0)); vm_compute; reflexivity|].
  vm_compute. reflexivity.
Defined.

(** The sensor platform raises during unload: the four platforms have
    been asked. *)
Lemma unload_raises_when_platform_raises_witness :
  calls (snd (async_unload_entry 0 (hass_loaded sensor_crashes)))
  = [CallForwardEntryUnload 0 "binary_sensor";
     CallForwardEntryUnload 0 "climate";
     CallForwardEntryUnload 0 "sensor";
     CallForwardEntryUnload 0 "weather"].
Proof.
  edestruct (unload_raises_when_platform_raises 0 (hass_loaded sensor_crashes))
    as (_ & Hcalls);
    [vm_compute; reflexivity
    |vm_compute; right; right; left; reflexivity|].
  exact Hcalls.
Defined.

(** Setup, then unload: [hass.data] is empty again. *)
Lemma setup_then_unload_restores_data_witness :
  data (snd (async_unload_entry 0
               (snd (async_setup_entry 0 0
                       (hass0 (polled (Some ["living room"]))))))) = ∅.
Proof.
  edestruct (setup_then_unload_restores_data 0 0
               (hass0 (polled (Some ["living room"])))) as (Hdata & _);
    [vm_compute; reflexivity|vm_compute; reflexivity|].
  exact Hdata.
Defined.

End Runs.
